(** * BloomFilter: a shallow embedding of [BloomFilter.py]

    The Python class [BloomFilter] keeps a list of booleans and derives
    [num_hash] positions per word from the word's MD5 digest.  This file
    embeds the class method by method and states the properties of its
    specification as theorems about the embedding.

    Layout:
    - [Py]      the fragment of Python the class relies on (exceptions,
                [str.encode], [int(s, 16)], slices, list subscripts);
    - [MD5]     [hashlib.md5(...).hexdigest()];
    - [Float]   binary64 arithmetic and the entry points of [math];
    - the class itself: static methods as functions that return or raise,
      methods in a state-and-exception monad over the instance;
    - [Driver]  the functions of [Driver.py], which call the methods and
                print;
    - the notions the statements use, then the lemmas and theorems: the
      properties of the specification (C1 to C10), then further
      properties of the code. *)

From Stdlib Require Import ZArith NArith List String Ascii Bool Lia.
From Stdlib Require Import DecimalString DecimalZ.
From Stdlib Require Import Floats.PrimFloat Floats.SpecFloat Floats.FloatOps.
From stdpp Require Import base list.
Import ListNotations.

Local Open Scope Z_scope.

(* ------------------------------------------------------------------ *)
(** * Python values and exceptions *)

Module Py.

(** Exceptions the class raises itself ([TypeError], [ValueError]) and
    those the built-ins it calls can raise.  In Python
    [UnicodeEncodeError] is a subclass of [ValueError]; it is kept apart
    here because the class never raises it on purpose. *)
Inductive exn : Type :=
| TypeError (msg : string)
| ValueError (msg : string)
| OverflowError (msg : string)
| ZeroDivisionError (msg : string)
| IndexError (msg : string)
| UnicodeEncodeError (msg : string).

Inductive result (A : Type) : Type :=
| Ok (a : A)
| Raise (e : exn).
Arguments Ok {A} a.
Arguments Raise {A} e.

Definition bind {A B} (r : result A) (k : A -> result B) : result B :=
  match r with
  | Ok a => k a
  | Raise e => Raise e
  end.

(** A [str] is a sequence of Unicode code points. *)
Definition str := list N.

Definition str_of_string (s : string) : str :=
  map N_of_ascii (list_ascii_of_string s).

(** [0xD800 .. 0xDFFF]: code points a [str] may hold but UTF-8 cannot
    encode. *)
Definition is_surrogate (c : N) : bool :=
  ((0xD800 <=? c) && (c <=? 0xDFFF))%N.

Definition utf8_of_code_point (c : N) : list N :=
  (if c <? 0x80 then [c]
   else if c <? 0x800 then [0xC0 + c / 0x40; 0x80 + c mod 0x40]
   else if c <? 0x10000 then
     [0xE0 + c / 0x1000; 0x80 + (c / 0x40) mod 0x40; 0x80 + c mod 0x40]
   else
     [0xF0 + c / 0x40000; 0x80 + (c / 0x1000) mod 0x40;
      0x80 + (c / 0x40) mod 0x40; 0x80 + c mod 0x40])%N.

(** [word.encode()]: UTF-8 with [errors='strict']. *)
Definition encode (s : str) : result (list N) :=
  if existsb is_surrogate s
  then Raise (UnicodeEncodeError "'utf-8' codec can't encode character: surrogates not allowed")
  else Ok (flat_map utf8_of_code_point s).

(** [int(s, 16)] on a string of lowercase hexadecimal digits. *)
Definition hex_digit_value (c : ascii) : option Z :=
  let n := Z.of_N (N_of_ascii c) in
  if (48 <=? n) && (n <=? 57) then Some (n - 48)
  else if (97 <=? n) && (n <=? 102) then Some (n - 87)
  else if (65 <=? n) && (n <=? 70) then Some (n - 55)
  else None.

Fixpoint int16_from (acc : Z) (s : string) : result Z :=
  match s with
  | EmptyString => Ok acc
  | String c s' =>
      match hex_digit_value c with
      | Some d => int16_from (16 * acc + d) s'
      | None => Raise (ValueError "invalid literal for int() with base 16")
      end
  end.

Definition int16 (s : string) : result Z :=
  match s with
  | EmptyString => Raise (ValueError "invalid literal for int() with base 16")
  | _ => int16_from 0 s
  end.

(** Slices [s[:n]] and [s[n:]] for [0 <= n]. *)
Fixpoint slice_to (n : nat) (s : string) : string :=
  match n, s with
  | S n', String c s' => String c (slice_to n' s')
  | _, _ => EmptyString
  end.

Fixpoint slice_from (n : nat) (s : string) : string :=
  match n, s with
  | S n', String _ s' => slice_from n' s'
  | _, _ => s
  end.

(** [a % b] on ints: the result has the sign of [b]. *)
Definition mod_ (a b : Z) : result Z :=
  if b =? 0 then Raise (ZeroDivisionError "integer modulo by zero")
  else Ok (a mod b).

(** [range(a, b)]. *)
Definition range (a b : Z) : list Z :=
  map (fun i => a + Z.of_nat i) (seq 0 (Z.to_nat (b - a))).

(** List subscripts: a negative index counts from the end. *)
Definition norm_index {A} (l : list A) (i : Z) : option nat :=
  let n := Z.of_nat (length l) in
  if (0 <=? i) && (i <? n) then Some (Z.to_nat i)
  else if (- n <=? i) && (i <? 0) then Some (Z.to_nat (i + n))
  else None.

Definition getitem {A} (l : list A) (i : Z) : result A :=
  match norm_index l i with
  | Some k =>
      match l !! k with
      | Some x => Ok x
      | None => Raise (IndexError "list index out of range")
      end
  | None => Raise (IndexError "list index out of range")
  end.

Definition setitem {A} (l : list A) (i : Z) (x : A) : result (list A) :=
  match norm_index l i with
  | Some k => Ok (<[k := x]> l)
  | None => Raise (IndexError "list assignment index out of range")
  end.

End Py.

(* ------------------------------------------------------------------ *)
(** * MD5 (RFC 1321), as [hashlib.md5(data).hexdigest()] *)

Module MD5.
Local Open Scope N_scope.

Definition mask32 : N := 0xFFFFFFFF.
Definition add32 (x y : N) : N := N.land (x + y) mask32.
Definition not32 (x : N) : N := N.lxor x mask32.
Definition rotl32 (x c : N) : N :=
  N.lor (N.land (N.shiftl x c) mask32) (N.shiftr x (32 - c)).

Definition shifts : list N :=
  [ 7; 12; 17; 22; 7; 12; 17; 22; 7; 12; 17; 22; 7; 12; 17; 22;
    5;  9; 14; 20; 5;  9; 14; 20; 5;  9; 14; 20; 5;  9; 14; 20;
    4; 11; 16; 23; 4; 11; 16; 23; 4; 11; 16; 23; 4; 11; 16; 23;
    6; 10; 15; 21; 6; 10; 15; 21; 6; 10; 15; 21; 6; 10; 15; 21 ].

(** [K[i] = floor(2^32 * |sin(i + 1)|)]. *)
Definition K : list N :=
  [ 0xd76aa478; 0xe8c7b756; 0x242070db; 0xc1bdceee; 0xf57c0faf; 0x4787c62a; 0xa8304613; 0xfd469501;
    0x698098d8; 0x8b44f7af; 0xffff5bb1; 0x895cd7be; 0x6b901122; 0xfd987193; 0xa679438e; 0x49b40821;
    0xf61e2562; 0xc040b340; 0x265e5a51; 0xe9b6c7aa; 0xd62f105d; 0x02441453; 0xd8a1e681; 0xe7d3fbc8;
    0x21e1cde6; 0xc33707d6; 0xf4d50d87; 0x455a14ed; 0xa9e3e905; 0xfcefa3f8; 0x676f02d9; 0x8d2a4c8a;
    0xfffa3942; 0x8771f681; 0x6d9d6122; 0xfde5380c; 0xa4beea44; 0x4bdecfa9; 0xf6bb4b60; 0xbebfbc70;
    0x289b7ec6; 0xeaa127fa; 0xd4ef3085; 0x04881d05; 0xd9d4d039; 0xe6db99e5; 0x1fa27cf8; 0xc4ac5665;
    0xf4292244; 0x432aff97; 0xab9423a7; 0xfc93a039; 0x655b59c3; 0x8f0ccc92; 0xffeff47d; 0x85845dd1;
    0x6fa87e4f; 0xfe2ce6e0; 0xa3014314; 0x4e0811a1; 0xf7537e82; 0xbd3af235; 0x2ad7d2bb; 0xeb86d391 ].

Record state := St { sa : N; sb : N; sc : N; sd : N }.

Definition init : state :=
  St 0x67452301 0xefcdab89 0x98badcfe 0x10325476.

(** Little-endian 32-bit words of a block, and back. *)
Fixpoint words_of_bytes (n : nat) (l : list N) : list N :=
  match n with
  | O => []
  | S n' =>
      match l with
      | b0 :: b1 :: b2 :: b3 :: l' =>
          (b0 + 0x100 * b1 + 0x10000 * b2 + 0x1000000 * b3)
            :: words_of_bytes n' l'
      | _ => []
      end
  end.

Definition bytes_of_word (w : N) : list N :=
  [ N.land w 0xFF; N.land (N.shiftr w 8) 0xFF;
    N.land (N.shiftr w 16) 0xFF; N.land (N.shiftr w 24) 0xFF ].

Definition step (M : list N) (s : state) (i : nat) : state :=
  let '(St a b c d) := s in
  let i' := N.of_nat i in
  let '(f, g) :=
    if i' <? 16 then (N.lor (N.land b c) (N.land (not32 b) d), i')
    else if i' <? 32 then
      (N.lor (N.land d b) (N.land (not32 d) c), (5 * i' + 1) mod 16)
    else if i' <? 48 then (N.lxor b (N.lxor c d), (3 * i' + 5) mod 16)
    else (N.lxor c (N.lor b (not32 d)), (7 * i') mod 16) in
  let f' := add32 (add32 (add32 f a) (nth i K 0)) (nth (N.to_nat g) M 0) in
  St d (add32 b (rotl32 f' (nth i shifts 0))) b c.

Definition block (s : state) (bytes : list N) : state :=
  let M := words_of_bytes 16 bytes in
  let s' := fold_left (step M) (seq 0 64) s in
  St (add32 (sa s) (sa s')) (add32 (sb s) (sb s'))
     (add32 (sc s) (sc s')) (add32 (sd s) (sd s')).

Definition pad (msg : list N) : list N :=
  let len := N.of_nat (length msg) in
  let zeros := N.to_nat ((119 - len mod 64) mod 64) in
  let bits := (8 * len) mod 2 ^ 64 in
  msg ++ [0x80] ++ repeat 0 zeros
      ++ bytes_of_word (N.land bits mask32)
      ++ bytes_of_word (N.shiftr bits 32).

Fixpoint blocks (n : nat) (s : state) (bytes : list N) : state :=
  match n with
  | O => s
  | S n' => blocks n' (block s (firstn 64 bytes)) (skipn 64 bytes)
  end.

(** The 16 bytes of the digest. *)
Definition digest (msg : list N) : list N :=
  let p := pad msg in
  let s := blocks (length p / 64)%nat init p in
  bytes_of_word (sa s) ++ bytes_of_word (sb s)
    ++ bytes_of_word (sc s) ++ bytes_of_word (sd s).

Definition hex_char (n : N) : ascii :=
  if n <? 10 then ascii_of_N (48 + n) else ascii_of_N (87 + n).

Fixpoint hex_of_bytes (l : list N) : string :=
  match l with
  | [] => EmptyString
  | b :: l' => String (hex_char (b / 16)) (String (hex_char (b mod 16)) (hex_of_bytes l'))
  end.

Definition hexdigest (msg : list N) : string := hex_of_bytes (digest msg).

End MD5.


(* ------------------------------------------------------------------ *)
(** * Binary64 floats and the [math] module *)

Module Float.
Import Py.

(** A Python [float] is an IEEE 754 binary64 number. *)
Definition float := spec_float.
Definition prec : Z := 53.
Definition emax : Z := 1024.

(** A float written as a literal. *)
Definition lit (x : PrimFloat.float) : float := FloatOps.Prim2SF x.

Definition mul : float -> float -> float := SFmul prec emax.
Definition div : float -> float -> float := SFdiv prec emax.
Definition neg : float -> float := SFopp.
Definition abs : float -> float := SFabs.
Definition eqb : float -> float -> bool := SFeqb.
Definition leb : float -> float -> bool := SFleb.
Definition ltb : float -> float -> bool := SFltb.

Definition zero : float := S754_zero false.
Definition one : float := S754_finite false 4503599627370496 (-52).
Definition two : float := S754_finite false 4503599627370496 (-51).

Definition is_nan (x : float) : bool :=
  match x with S754_nan => true | _ => false end.
Definition is_inf (x : float) : bool :=
  match x with S754_infinity _ => true | _ => false end.
Definition is_zero (x : float) : bool :=
  match x with S754_zero _ => true | _ => false end.
Definition is_finite (x : float) : bool :=
  match x with S754_zero _ | S754_finite _ _ _ => true | _ => false end.

(** [float(z)] for an int: rounded to nearest, ties to even. *)
Definition of_int (z : Z) : result float :=
  let x := binary_normalize prec emax z 0 false in
  if is_inf x then Raise (OverflowError "int too large to convert to float")
  else Ok x.

(** [a / b] on two ints: the correctly rounded quotient. *)
Definition int_truediv (a b : Z) : result float :=
  let s := xorb (a <? 0) (b <? 0) in
  match a, b with
  | _, Z0 => Raise (ZeroDivisionError "division by zero")
  | Z0, _ => Ok (S754_zero s)
  | _, _ =>
      let q := div (S754_finite (a <? 0) (Z.to_pos (Z.abs a)) 0)
                   (S754_finite (b <? 0) (Z.to_pos (Z.abs b)) 0) in
      if is_inf q
      then Raise (OverflowError "integer division result too large for a float")
      else Ok q
  end.

(** [x / y] on two floats. *)
Definition truediv (x y : float) : result float :=
  if is_zero y then Raise (ZeroDivisionError "float division by zero")
  else Ok (div x y).

(** [int * float]: the int is converted first. *)
Definition int_mul (n : Z) (x : float) : result float :=
  bind (of_int n) (fun n' => Ok (mul n' x)).

(** The float [S754_finite s m e] is the number [signed s m * 2^e];
    [to_int_of round] is the integer next to it in the direction that
    [round], a rounding division, takes. *)
Definition signed (s : bool) (m : positive) : Z :=
  if s then Zneg m else Zpos m.

Definition to_int_of (round : Z -> Z -> Z) (x : float) : result Z :=
  match x with
  | S754_nan => Raise (ValueError "cannot convert float NaN to integer")
  | S754_infinity _ =>
      Raise (OverflowError "cannot convert float infinity to integer")
  | S754_zero _ => Ok 0
  | S754_finite s m e =>
      Ok (if 0 <=? e then signed s m * 2 ^ e
          else round (signed s m) (2 ^ (- e)))
  end.

(** [int(x)]: toward zero. *)
Definition to_int : float -> result Z := to_int_of Z.quot.

(** [math.ceil(x)]: toward plus infinity. *)
Definition ceil : float -> result Z :=
  to_int_of (fun a b => - ((- a) / b)).

(** The C library's [log], [exp] and [pow], which [math] and
    [float.__pow__] wrap.  Their results are not fixed by IEEE 754. *)
Record libm := Libm {
  c_log : float -> float;
  c_exp : float -> float;
  c_pow : float -> float -> float
}.

Section Math.
Variable L : libm.

(** [math.log(x)] for a float [x]. *)
Definition math_log (x : float) : result float :=
  match x with
  | S754_nan => Ok x
  | S754_infinity false => Ok x
  | S754_finite false _ _ =>
      let r := c_log L x in
      if is_nan r || is_inf r then Raise (ValueError "math domain error")
      else Ok r
  | _ => Raise (ValueError "math domain error")
  end.

(** [math.log(2)]: the int [2] is converted to the float [2.0] and
    handed to the C library. *)
Definition math_log_2 : float := c_log L two.

(** [math.exp(x)]. *)
Definition math_exp (x : float) : result float :=
  let r := c_exp L x in
  if is_nan r && negb (is_nan x) then Raise (ValueError "math domain error")
  else if is_inf r && is_finite x then Raise (OverflowError "math range error")
  else Ok r.

(** [x ** 2]: [float.__pow__] with the exponent [2.0]. *)
Definition pow2 (x : float) : result float :=
  match x with
  | S754_nan => Ok x
  | S754_infinity _ => Ok (S754_infinity false)
  | S754_zero _ => Ok zero
  | S754_finite _ _ _ =>
      if eqb (abs x) one then Ok one
      else
        let r := c_pow L (abs x) two in
        if is_inf r
        then Raise (OverflowError "(34, 'Numerical result out of range')")
        else Ok r
  end.
End Math.

End Float.

(* ------------------------------------------------------------------ *)
(** * The class [BloomFilter] *)

Import Py.

(** The arguments the methods are called with: ints, floats, strings, and
    [NoneV] for any object that is neither a number nor a string.  Not
    represented: [bool], a subclass of [int] that behaves as the ints 0 and
    1 here, and the numbers that are neither [int] nor [float]. *)
Inductive value : Type :=
| Int (z : Z)
| Flt (x : Float.float)
| Str (s : str)
| NoneV.

(** The attributes of an instance. *)
Record BloomFilter := Build {
  _num_words : Z;
  _num_bits : Z;
  _false_positive_prob : Float.float;
  _num_hash : Z;
  _bit_array : list bool
}.

(** The properties [num_words], [num_bits], [false_positive_probability]
    and [num_hash] return the attributes. *)
Definition num_words (self : BloomFilter) : Z := _num_words self.
Definition num_bits (self : BloomFilter) : Z := _num_bits self.
Definition false_positive_probability (self : BloomFilter) : Float.float :=
  _false_positive_prob self.
Definition num_hash (self : BloomFilter) : Z := _num_hash self.

Definition with_bit_array (self : BloomFilter) (l : list bool) : BloomFilter :=
  Build (_num_words self) (_num_bits self) (_false_positive_prob self)
        (_num_hash self) l.

(** ** Static methods: validation

    Each validator returns [None] in Python; here it returns the argument
    at the type its [isinstance] test has established.  (No int passes
    [_validate_probability]; one that did would be used as a float.) *)

Definition _validate_num_words (n : value) : result Z :=
  match n with
  | Int z =>
      if z <=? 0 then Raise (ValueError "Number of words should be positive")
      else Ok z
  | _ => Raise (TypeError "Number of words should be an integer")
  end.

Definition _validate_num_bits (m : value) : result Z :=
  match m with
  | Int z =>
      if z <=? 0 then Raise (ValueError "Length of bit array should be positive")
      else Ok z
  | _ => Raise (TypeError "Length of bit array should be an integer")
  end.

Definition _validate_probability (p : value) : result Float.float :=
  match p with
  | Int z =>
      if (z <=? 0) || (1 <=? z)
      then Raise (ValueError "Probability should be a number in (0,1)")
      else Float.of_int z
  | Flt x =>
      if Float.leb x Float.zero || Float.leb Float.one x
      then Raise (ValueError "Probability should be a number in (0,1)")
      else Ok x
  | _ => Raise (TypeError "Probability should be a number")
  end.

Definition _validate_word (w : value) : result str :=
  match w with
  | Str s => Ok s
  | _ => Raise (TypeError "Word should be a string")
  end.

(** ** Static methods: parameters *)

Notation "'let*' x ':=' e 'in' k" := (Py.bind e (fun x => k))
  (at level 10, x name, e at level 200, k at level 200).

Section Parameters.
Variable L : Float.libm.

(** [-(n * math.log(p)) / (math.log(2)**2)], then [math.ceil]. *)
Definition _calculate_num_bits (n : Z) (p : Float.float) : result Z :=
  let* lp := Float.math_log L p in
  let* nlp := Float.int_mul n lp in
  let* l2sq := Float.pow2 L (Float.math_log_2 L) in
  let* m := Float.truediv (Float.neg nlp) l2sq in
  Float.ceil m.

(** [(m/n) * math.log(2)], then [int]. *)
Definition _calculate_num_hash (n m : Z) : result Z :=
  let* q := Float.int_truediv m n in
  Float.to_int (Float.mul q (Float.math_log_2 L)).

(** [math.exp(-(m/n) * (math.log(2)**2))]. *)
Definition _calculate_false_positive (n m : Z) : result Float.float :=
  let* q := Float.int_truediv m n in
  let* l2sq := Float.pow2 L (Float.math_log_2 L) in
  Float.math_exp L (Float.mul (Float.neg q) l2sq).

(** ** Constructors *)

(** [BloomFilter(num_words, num_bits)], in the order of the source: the two
    validators, the estimate, the number of hash functions, the bit array.
    The last step, [[False]*num_bits], fails in CPython with [OverflowError]
    or [MemoryError] when the list is too long for the interpreter or for
    the memory of the machine.  That failure is outside the embedding,
    which describes the calls that get past this line and the failures
    that come before it: no statement below says that a call of a
    constructor returns, except for the two filters of [Driver.py]. *)
Definition __init__ (num_words num_bits : value) : result BloomFilter :=
  let* n := _validate_num_words num_words in
  let* m := _validate_num_bits num_bits in
  let* fp := _calculate_false_positive n m in
  let* k := _calculate_num_hash n m in
  Ok (Build n m fp k (repeat false (Z.to_nat m))).

(** [BloomFilter.with_false_positive_constraint(num_words, probability)]. *)
Definition with_false_positive_constraint (num_words probability : value)
  : result BloomFilter :=
  let* n := _validate_num_words num_words in
  let* p := _validate_probability probability in
  let* num_bits := _calculate_num_bits n p in
  __init__ num_words (Int num_bits).
End Parameters.

(** ** Methods

    A method runs on the instance and either returns or raises; in both
    cases it leaves an instance behind. *)

Definition method (A : Type) : Type := BloomFilter -> BloomFilter * result A.

Definition ret {A} (a : A) : method A := fun self => (self, Ok a).
Definition lift {A} (r : result A) : method A := fun self => (self, r).
Definition mbind {A B} (c : method A) (k : A -> method B) : method B :=
  fun self =>
    match c self with
    | (self', Ok a) => k a self'
    | (self', Raise e) => (self', Raise e)
    end.

Notation "'let~' x ':=' c 'in' k" := (mbind c (fun x => k))
  (at level 10, x name, c at level 200, k at level 200).

(** [[f(i) for i in l]]. *)
Fixpoint comprehension {A B} (f : A -> result B) (l : list A)
  : result (list B) :=
  match l with
  | [] => Ok []
  | a :: l' => let* b := f a in let* bs := comprehension f l' in Ok (b :: bs)
  end.

(** [for i in l: body(i)]. *)
Fixpoint for_ {A} (l : list A) (body : A -> method unit) : method unit :=
  match l with
  | [] => ret tt
  | a :: l' => let~ _ := body a in for_ l' body
  end.

(** [self._bit_array[i] = True]. *)
Definition set_bit (i : Z) : method unit :=
  fun self =>
    match setitem (_bit_array self) i true with
    | Ok l => (with_bit_array self l, Ok tt)
    | Raise e => (self, Raise e)
    end.

Definition _get_hashes (word : str) : method (list Z) :=
  fun self =>
    (self,
     let* b1 := encode word in
     let* h1 := int16 (slice_to 15 (MD5.hexdigest b1)) in
     let* b2 := encode word in
     let* h2 := int16 (slice_from 16 (MD5.hexdigest b2)) in
     comprehension (fun i => mod_ (h1 + i * h2) (_num_bits self))
                   (range 1 (num_hash self + 1))).

Definition add (word : value) : method unit :=
  let~ w := lift (_validate_word word) in
  let~ bit_indices := _get_hashes w in
  for_ bit_indices set_bit.

Definition query (word : value) : method bool :=
  let~ w := lift (_validate_word word) in
  let~ bit_indices := _get_hashes w in
  fun self =>
    (self,
     let* bits := comprehension (getitem (_bit_array self)) bit_indices in
     Ok (forallb id bits)).

(** ** [__str__] *)

(** [str(n)] for an int. *)
Definition str_int (z : Z) : string := NilEmpty.string_of_int (Z.to_int z).

Definition newline : ascii := ascii_of_nat 10.
Definition nl : string := String newline EmptyString.

(** [str(self)].  The text of a float, [str(x)], is the shortest decimal
    that reads back as [x]; it is a parameter here. *)
Definition __str__ (float_str : Float.float -> string) (self : BloomFilter) : string :=
  ("Word Capacity = " ++ str_int (num_words self) ++ nl
   ++ "Number of bits = " ++ str_int (num_bits self) ++ nl
   ++ "False positive probability = "
   ++ float_str (false_positive_probability self))%string.

(* ------------------------------------------------------------------ *)
(** * Instances and items used as examples *)

(** The results of the C library on the arguments that the two filters of
    [Driver.py], [BloomFilter(100, 400)] and
    [BloomFilter.with_false_positive_constraint(1000, 0.01)], reach
    (glibc on x86-64); [nan] elsewhere. *)
Definition libm_driver : Float.libm :=
  let at_ (x : Float.float) (table : list (PrimFloat.float * PrimFloat.float)) :=
    match find (fun '(a, _) => Float.eqb x (Float.lit a)) table with
    | Some (_, r) => Float.lit r
    | None => S754_nan
    end in
  Float.Libm
    (fun x => at_ x [(2, 0x1.62e42fefa39efp-1); (0x1.47ae147ae147bp-7, -0x1.26bb1bbb55515p+2)]%float)
    (fun x => at_ x [(-0x1.ebfbdff82c58ep+0, 0x1.2bb51d5fa4b45p-3);
                     (-0x1.26c28541f77f6p+2, 0x1.4788235839ddcp-7)]%float)
    (fun x y =>
       if Float.eqb y Float.two
       then at_ x [(0x1.62e42fefa39efp-1, 0x1.ebfbdff82c58ep-2)]%float
       else S754_nan).

(** [BloomFilter(100, 400)], the first filter of [Driver.py], before any
    word is added. *)
Definition bloom1 : BloomFilter :=
  Build 100 400 (Float.lit 0x1.2bb51d5fa4b45p-3%float) 2 (repeat false 400).

(** [BloomFilter.with_false_positive_constraint(1000, 0.01)], the second
    filter of [Driver.py], before any word is added. *)
Definition bloom2 : BloomFilter :=
  Build 1000 9586 (Float.lit 0x1.4788235839ddcp-7%float) 6 (repeat false (Z.to_nat 9586)).

(** [BloomFilter(100, 1)]: one bit for a hundred words, no hash function. *)
Definition bloom_k0 : BloomFilter :=
  Build 100 1 (Float.lit 0x1.fd8bc560b0f28p-1%float) 0 [false].

(** A string written as a literal. *)
Definition word (s : string) : value := Str (str_of_string s).

(** A string made of one lone surrogate, ['\ud800']. *)
Definition lone_surrogate : value := Str [0xD800%N].

(** The instance [self] with another number of hash functions. *)
Definition with_num_hash (self : BloomFilter) (k : Z) : BloomFilter :=
  Build (_num_words self) (_num_bits self) (_false_positive_prob self) k
        (_bit_array self).

(* ------------------------------------------------------------------ *)
(** * The specification, where it says more than the code *)

(** Following the specification, 4.2: the digest is split into two halves,
    [h1] is the first half and [h2] the second, each read as a non-negative
    integer, and the positions are [(h1 + i * h2) mod bit_count] for
    [i = 1 .. hash_count]. *)
Definition positions_spec (item : str) (bit_count hash_count : Z) : result (list Z) :=
  let* bytes := encode item in
  let digest := MD5.hexdigest bytes in
  let* h1 := int16 (slice_to 16 digest) in
  let* h2 := int16 (slice_from 16 digest) in
  comprehension (fun i => mod_ (h1 + i * h2) bit_count) (range 1 (hash_count + 1)).



(* ------------------------------------------------------------------ *)
(** * Notions the statements use *)

(** A well-formed instance: the bit array has [num_bits] entries. *)
Definition wf (self : BloomFilter) : Prop :=
  0 < _num_bits self /\ Z.of_nat (length (_bit_array self)) = _num_bits self.

(** Inserting a sequence of items, one call of [add] each; a call that
    raises is caught and the next one is made. *)
Definition add_all (words : list value) (self : BloomFilter) : BloomFilter :=
  fold_left (fun f w => fst (add w f)) words self.

(** The positions as a function of the word and of the two attributes
    [_get_hashes] reads. *)
Definition positions (word : str) (m k : Z) : result (list Z) :=
  let* b1 := encode word in
  let* h1 := int16 (slice_to 15 (MD5.hexdigest b1)) in
  let* b2 := encode word in
  let* h2 := int16 (slice_from 16 (MD5.hexdigest b2)) in
  comprehension (fun i => mod_ (h1 + i * h2) m) (range 1 (k + 1)).

(** [covers l l']: [l'] has the length of [l] and every bit set in [l] is
    set in [l']. *)
Definition covers (l l' : list bool) : Prop :=
  length l' = length l /\ forall k : nat, l !! k = Some true -> l' !! k = Some true.

Fixpoint hexstr (s : string) : Prop :=
  match s with
  | EmptyString => True
  | String c s' => hex_digit_value c <> None /\ hexstr s'
  end.

(** No line break in the text of an int. *)
Fixpoint one_line (s : string) : Prop :=
  match s with
  | EmptyString => True
  | String c s' => c <> newline /\ one_line s'
  end.

Definition raises_TypeError {A} (r : result A) : Prop :=
  exists msg, r = Raise (TypeError msg).
Definition raises_ValueError {A} (r : result A) : Prop :=
  exists msg, r = Raise (ValueError msg).

Definition is_int (v : value) : bool :=
  match v with Int _ => true | _ => false end.
Definition is_number (v : value) : bool :=
  match v with Int _ | Flt _ => true | _ => false end.
Definition is_str (v : value) : bool :=
  match v with Str _ => true | _ => false end.

(** The probabilities [_validate_probability] turns down: those with
    [p <= 0 or p >= 1]. *)
Definition outside_unit_interval (v : value) : Prop :=
  match v with
  | Int _ => True
  | Flt x => Float.leb x Float.zero = true \/ Float.leb Float.one x = true
  | _ => False
  end.

Definition sign_bit (x : Float.float) : bool :=
  match x with
  | S754_zero s | S754_infinity s | S754_finite s _ _ => s
  | S754_nan => false
  end.

(** The largest integer not above [x]. *)
Definition floor_of (x : Float.float) : option Z :=
  match x with
  | S754_zero _ => Some 0
  | S754_finite s m e =>
      Some (if 0 <=? e then Float.signed s m * 2 ^ e
            else Float.signed s m / 2 ^ (- e))
  | _ => None
  end.

(* ------------------------------------------------------------------ *)
(** * [Driver.py] *)

Module Driver.

(** The functions of [Driver.py] call methods of the filter they are given
    and print: a program runs on the filter and on the text written to the
    standard output so far, and leaves both behind, also when it raises. *)
Definition prog (A : Type) : Type :=
  BloomFilter * string -> (BloomFilter * string) * result A.

Definition pbind {A B} (c : prog A) (k : A -> prog B) : prog B :=
  fun w =>
    match c w with
    | (w', Ok a) => k a w'
    | (w', Raise e) => (w', Raise e)
    end.

Notation "'let!' x ':=' c 'in' k" := (pbind c (fun x => k))
  (at level 10, x name, c at level 200, k at level 200).

(** A method call, or a loop of method calls, on the filter. *)
Definition call {A} (c : method A) : prog A :=
  fun w =>
    match c (fst w) with
    | (f', r) => ((f', snd w), r)
    end.

(** An expression that can raise. *)
Definition of_result {A} (r : result A) : prog A := fun w => (w, r).

(** [print(s)] writes [s] and a line break. *)
Definition print (s : string) : prog unit :=
  fun w => ((fst w, (snd w ++ s ++ nl)%string), Ok tt).

(** [bloom_filter.num_words]. *)
Definition get_num_words : method Z := fun self => (self, Ok (num_words self)).

(** [[f(i) for i in l]] where [f(i)] is a method call. *)
Fixpoint comprehension_m {A B} (f : A -> method B) (l : list A)
  : method (list B) :=
  match l with
  | [] => ret []
  | a :: l' =>
      let~ b := f a in
      let~ bs := comprehension_m f l' in
      ret (b :: bs)
  end.

(** [sum(l)] on a list of booleans: [True] counts as 1. *)
Definition sum (l : list bool) : Z :=
  fold_left (fun acc b => acc + Z.b2z b) l 0.

(** [str(i)] for an int [i], as an argument of [add] and [query]. *)
Definition str_ (i : Z) : value := Str (str_of_string (str_int i)).

Definition populate_filter : prog unit :=
  let! n := call get_num_words in
  let! _ := call (for_ (range 0 n) (fun i => add (str_ i))) in
  print ("Added " ++ str_int n ++ " words to bloom filter." ++ nl).

Definition test_false_negative : prog unit :=
  let! _ := print "Querying for items previously added to the filter:" in
  let! n := call get_num_words in
  let! hits := call (comprehension_m (fun i => query (str_ i)) (range 0 n)) in
  let num_hits := sum hits in
  print (str_int num_hits ++ " out of " ++ str_int n ++ " words found." ++ nl).

(** The text of a float, [str(x)], is a parameter, as in [__str__]. *)
Definition test_false_positive (float_str : Float.float -> string) : prog unit :=
  let! _ := print "Querying for 10,000 new words never added to the filter:" in
  let! n := call get_num_words in
  let! hits := call (comprehension_m (fun i => query (str_ i)) (range n (n + 10000))) in
  let num_hits := sum hits in
  let! rate := of_result (Float.int_truediv num_hits 10000) in
  print ("The empirical false positive rate is " ++ float_str rate).

(** The three calls [main] makes on each of its filters. *)
Definition run_filter (float_str : Float.float -> string) : prog unit :=
  let! _ := populate_filter in
  let! _ := test_false_negative in
  test_false_positive float_str.

(** [0.01], the literal of [main]. *)
Definition one_percent : Float.float := Float.lit 0x1.47ae147ae147bp-7%float.

(** [main()], on the text written so far.  A filter is an object that
    [main] creates, hands to the three functions and drops. *)
Definition main (L : Float.libm) (float_str : Float.float -> string)
  : string -> string * result unit :=
  fun out =>
    let out1 :=
      (out ++ (nl ++ nl ++ "Example 1 - A Bloom filter that uses 400 bits to store up to"
                 ++ " 100 words:" ++ nl) ++ nl)%string in
    match __init__ L (Int 100) (Int 400) with
    | Raise e => (out1, Raise e)
    | Ok bloom1 =>
        match run_filter float_str (bloom1, out1) with
        | ((_, out2), Raise e) => (out2, Raise e)
        | ((_, out2), Ok _) =>
            let out3 :=
              (out2 ++ (nl ++ nl ++ "Example 2 - A Bloom filter that stores up to 1000 words with"
                          ++ " a false positive probability less than 0.01:" ++ nl) ++ nl)%string in
            match with_false_positive_constraint L (Int 1000) (Flt one_percent) with
            | Raise e => (out3, Raise e)
            | Ok bloom2 =>
                match run_filter float_str (bloom2, out3) with
                | ((_, out4), r) => (out4, r)
                end
            end
        end
    end.

End Driver.

(* ------------------------------------------------------------------ *)
(** * Notions for the properties beyond the specification *)

(** The positions that [add(w)] sets and [query(w)] reads on [self]: the
    list that [_get_hashes] returns, and none for an item on which the call
    raises before. *)
Definition hash_positions (self : BloomFilter) (w : value) : list Z :=
  match w with
  | Str s =>
      match snd (_get_hashes s self) with
      | Ok idxs => idxs
      | Raise _ => []
      end
  | _ => []
  end.

(** [i] is a position of one of the items [ws]. *)
Definition hit_by (self : BloomFilter) (ws : list value) (i : Z) : bool :=
  existsb (fun w => existsb (Z.eqb i) (hash_positions self w)) ws.

(** The number of bits that are set. *)
Definition set_bits (self : BloomFilter) : nat :=
  length (List.filter id (_bit_array self)).

(** [self] is what one of the two constructors has returned. *)
Definition constructed (L : Float.libm) (self : BloomFilter) : Prop :=
  (exists vn vm, __init__ L vn vm = Ok self) \/
  (exists vn vp, with_false_positive_constraint L vn vp = Ok self).

(* ------------------------------------------------------------------ *)
(** * The digest is 32 hexadecimal digits *)

Lemma hex_digit_value_hex_char (n : N) :
  (n < 16)%N -> hex_digit_value (MD5.hex_char n) = Some (Z.of_N n).
Proof.
  intros Hn.
  assert (E : n = N.of_nat (N.to_nat n)) by (symmetry; apply N2Nat.id).
  assert (Hk : (N.to_nat n < 16)%nat) by lia.
  rewrite E. generalize dependent (N.to_nat n). intros k _ Hk.
  do 16 (destruct k as [|k]; [reflexivity|]). lia.
Qed.

Lemma land_255_lt (x : N) : (N.land x 0xFF < 256)%N.
Proof.
  change 0xFF%N with (N.ones 8). rewrite N.land_ones.
  apply N.mod_lt. discriminate.
Qed.

Lemma digest_bytes (msg : list N) :
  length (MD5.digest msg) = 16%nat /\
  Forall (fun b => (b < 256)%N) (MD5.digest msg).
Proof.
  unfold MD5.digest.
  generalize (MD5.blocks (length (MD5.pad msg) / 64) MD5.init (MD5.pad msg)).
  intros s. unfold MD5.bytes_of_word. cbn [app]. split; [reflexivity|].
  repeat constructor; apply land_255_lt.
Qed.

Lemma hex_of_bytes_length (l : list N) :
  String.length (MD5.hex_of_bytes l) = (2 * length l)%nat.
Proof. induction l as [|b l IH]; cbn [MD5.hex_of_bytes String.length length]; lia. Qed.

Lemma hex_of_bytes_hexstr (l : list N) :
  Forall (fun b => (b < 256)%N) l -> hexstr (MD5.hex_of_bytes l).
Proof.
  induction 1 as [|b l Hb _ IH]; cbn [MD5.hex_of_bytes hexstr]; [exact I|].
  repeat split; try assumption.
  - rewrite hex_digit_value_hex_char; [discriminate|].
    apply N.Div0.div_lt_upper_bound. exact Hb.
  - rewrite hex_digit_value_hex_char; [discriminate|].
    apply N.mod_lt. discriminate.
Qed.

Lemma hexdigest_shape (msg : list N) :
  String.length (MD5.hexdigest msg) = 32%nat /\ hexstr (MD5.hexdigest msg).
Proof.
  destruct (digest_bytes msg) as [Hl Hb]. unfold MD5.hexdigest. split.
  - rewrite hex_of_bytes_length, Hl. reflexivity.
  - apply hex_of_bytes_hexstr, Hb.
Qed.

Lemma slice_to_hexstr (n : nat) (s : string) : hexstr s -> hexstr (slice_to n s).
Proof.
  revert s. induction n as [|n IH]; intros [|c s]; cbn; try tauto.
  intros [Hc Hs]. split; [assumption | apply IH, Hs].
Qed.

Lemma slice_from_hexstr (n : nat) (s : string) : hexstr s -> hexstr (slice_from n s).
Proof.
  revert s. induction n as [|n IH]; intros [|c s]; cbn; try tauto.
  intros [_ Hs]. apply IH, Hs.
Qed.

Lemma slice_to_length (n : nat) (s : string) :
  String.length (slice_to n s) = Nat.min n (String.length s).
Proof.
  revert s. induction n as [|n IH]; intros [|c s]; cbn; try reflexivity.
  now rewrite IH.
Qed.

Lemma slice_from_length (n : nat) (s : string) :
  String.length (slice_from n s) = (String.length s - n)%nat.
Proof.
  revert s. induction n as [|n IH]; intros [|c s]; cbn; try reflexivity.
  now rewrite IH.
Qed.

Lemma int16_from_hexstr (s : string) (acc : Z) :
  hexstr s -> exists z, int16_from acc s = Ok z.
Proof.
  revert acc. induction s as [|c s IH]; intros acc Hs; cbn.
  - now exists acc.
  - destruct Hs as [Hc Hs]. destruct (hex_digit_value c) as [d|]; [|congruence].
    apply IH, Hs.
Qed.

Lemma int16_hexstr (s : string) :
  hexstr s -> (0 < String.length s)%nat -> exists z, int16 s = Ok z.
Proof.
  destruct s as [|c s]; cbn [String.length]; [lia|].
  intros Hs _. unfold int16. now apply int16_from_hexstr.
Qed.

(** The two integers [_get_hashes] reads off a digest. *)
Lemma digest_halves (bytes : list N) :
  exists h1 h2,
    int16 (slice_to 15 (MD5.hexdigest bytes)) = Ok h1 /\
    int16 (slice_from 16 (MD5.hexdigest bytes)) = Ok h2.
Proof.
  destruct (hexdigest_shape bytes) as [Hl Hh].
  destruct (int16_hexstr (slice_to 15 (MD5.hexdigest bytes))) as [h1 E1].
  { now apply slice_to_hexstr. }
  { rewrite slice_to_length, Hl. cbn. lia. }
  destruct (int16_hexstr (slice_from 16 (MD5.hexdigest bytes))) as [h2 E2].
  { now apply slice_from_hexstr. }
  { rewrite slice_from_length, Hl. cbn. lia. }
  exists h1, h2. split; assumption.
Qed.

(* ------------------------------------------------------------------ *)
(** * Lists under [setitem] *)

Section Subscripts.
Context {A : Type}.
Implicit Types (l : list A) (i : Z) (k : nat).

Lemma norm_index_lt l i k : norm_index l i = Some k -> (k < length l)%nat.
Proof.
  unfold norm_index.
  destruct ((0 <=? i) && (i <? Z.of_nat (length l))) eqn:E1.
  - intros [= <-]. lia.
  - destruct ((- Z.of_nat (length l) <=? i) && (i <? 0)) eqn:E2; [|discriminate].
    intros [= <-]. lia.
Qed.

Lemma norm_index_same_length {B} l (l' : list B) i :
  length l' = length l -> norm_index l' i = norm_index l i.
Proof. unfold norm_index. now intros ->. Qed.

Lemma norm_index_in_range l i :
  0 <= i < Z.of_nat (length l) -> norm_index l i = Some (Z.to_nat i).
Proof.
  intros H. unfold norm_index.
  replace ((0 <=? i) && (i <? Z.of_nat (length l))) with true; [reflexivity|].
  symmetry. apply andb_true_iff. lia.
Qed.

Lemma setitem_length l i x l' : setitem l i x = Ok l' -> length l' = length l.
Proof.
  unfold setitem. destruct (norm_index l i); [|discriminate].
  intros [= <-]. apply length_insert.
Qed.

Lemma setitem_getitem l i x l' : setitem l i x = Ok l' -> getitem l' i = Ok x.
Proof.
  intros H. pose proof (setitem_length _ _ _ _ H) as Hl.
  unfold setitem in H. unfold getitem.
  rewrite (norm_index_same_length l l' i Hl).
  destruct (norm_index l i) as [k|] eqn:E; [|discriminate].
  injection H as <-. apply norm_index_lt in E.
  now rewrite list_lookup_insert_eq.
Qed.

Lemma setitem_in_range l i x :
  0 <= i < Z.of_nat (length l) -> exists l', setitem l i x = Ok l'.
Proof.
  intros H. unfold setitem. rewrite norm_index_in_range by exact H. eauto.
Qed.
End Subscripts.

Lemma covers_refl (l : list bool) : covers l l.
Proof. split; auto. Qed.

Lemma covers_trans (l1 l2 l3 : list bool) :
  covers l1 l2 -> covers l2 l3 -> covers l1 l3.
Proof. intros [H1 H2] [H3 H4]. split; [congruence | auto]. Qed.

Lemma setitem_covers (l l' : list bool) (i : Z) :
  setitem l i true = Ok l' -> covers l l'.
Proof.
  intros H. split; [eapply setitem_length, H|].
  unfold setitem in H. destruct (norm_index l i) as [j|]; [|discriminate].
  injection H as <-. intros k Hk.
  destruct (decide (j = k)) as [->|Hne].
  - rewrite list_lookup_insert_eq; [reflexivity|]. now apply lookup_lt_Some in Hk.
  - now rewrite list_lookup_insert_ne.
Qed.

Lemma getitem_covers (l l' : list bool) (i : Z) :
  covers l l' -> getitem l i = Ok true -> getitem l' i = Ok true.
Proof.
  intros [Hl Hc]. unfold getitem. rewrite (norm_index_same_length l l' i Hl).
  destruct (norm_index l i) as [k|]; [|discriminate].
  destruct (l !! k) as [b|] eqn:E; [|discriminate].
  intros [= ->]. now rewrite (Hc k E).
Qed.

(** A set bit is left as it is by a further assignment. *)
Lemma setitem_set (l : list bool) (i : Z) :
  getitem l i = Ok true -> setitem l i true = Ok l.
Proof.
  unfold getitem, setitem. destruct (norm_index l i) as [k|]; [|discriminate].
  destruct (l !! k) as [b|] eqn:E; [|discriminate].
  intros [= ->]. now rewrite list_insert_id.
Qed.

(* ------------------------------------------------------------------ *)
(** * The loop of [add] *)

Lemma with_bit_array_same (self : BloomFilter) :
  with_bit_array self (_bit_array self) = self.
Proof. now destruct self. Qed.

Lemma for_set_bit (idxs : list Z) (self : BloomFilter) :
  exists l r,
    for_ idxs set_bit self = (with_bit_array self l, r) /\
    covers (_bit_array self) l /\
    (r = Ok tt -> Forall (fun i => getitem l i = Ok true) idxs).
Proof.
  revert self. induction idxs as [|i idxs IH]; intros self.
  - exists (_bit_array self), (Ok tt). cbn. rewrite with_bit_array_same.
    repeat split; auto using covers_refl.
  - cbn [for_]. unfold mbind, set_bit at 1.
    destruct (setitem (_bit_array self) i true) as [l1|e] eqn:E.
    + destruct (IH (with_bit_array self l1)) as (l & r & Hrun & Hc & Hr).
      exists l, r. rewrite Hrun. cbn in Hc. split; [reflexivity|]. split.
      * eapply covers_trans; [eapply setitem_covers, E | exact Hc].
      * intros ->. constructor; [|now apply Hr].
        eapply getitem_covers; [exact Hc|]. eapply setitem_getitem, E.
    + exists (_bit_array self), (Raise e). rewrite with_bit_array_same.
      repeat split; auto using covers_refl. discriminate.
Qed.

(** Running the loop a second time changes nothing. *)
Lemma for_set_bit_again (idxs : list Z) (self self' : BloomFilter) (r : result unit) :
  for_ idxs set_bit self = (self', r) -> for_ idxs set_bit self' = (self', r).
Proof.
  revert self. induction idxs as [|i idxs IH]; intros self.
  - cbn. unfold ret. now intros [= <- <-].
  - cbn [for_]. unfold mbind, set_bit at 1.
    destruct (setitem (_bit_array self) i true) as [l1|e] eqn:E.
    + intros Hrun.
      destruct (for_set_bit idxs (with_bit_array self l1)) as (l & r' & Hrun' & Hc & _).
      rewrite Hrun in Hrun'. injection Hrun' as -> ->. cbn in Hc.
      unfold set_bit at 1. cbn [_bit_array with_bit_array].
      rewrite (setitem_set l i).
      * apply (IH _ Hrun).
      * eapply getitem_covers; [exact Hc|]. eapply setitem_getitem, E.
    + intros [= <- <-]. unfold set_bit. now rewrite E.
Qed.

(** In range, the loop does not raise. *)
Lemma for_set_bit_in_range (idxs : list Z) (self : BloomFilter) :
  Forall (fun i => 0 <= i < Z.of_nat (length (_bit_array self))) idxs ->
  snd (for_ idxs set_bit self) = Ok tt.
Proof.
  revert self. induction idxs as [|i idxs IH]; intros self H; [reflexivity|].
  inversion H as [|? ? Hi Hrest]; subst.
  cbn [for_]. unfold mbind, set_bit at 1.
  destruct (setitem_in_range (_bit_array self) i true Hi) as [l1 E].
  rewrite E. apply IH. cbn [_bit_array with_bit_array].
  now rewrite (setitem_length _ _ _ _ E).
Qed.

(* ------------------------------------------------------------------ *)
(** * [_get_hashes], [add] and [query] *)

Lemma _get_hashes_eq (word : str) (self : BloomFilter) :
  _get_hashes word self = (self, positions word (_num_bits self) (_num_hash self)).
Proof. reflexivity. Qed.

Lemma add_eq (word : value) (self : BloomFilter) :
  add word self =
    match word with
    | Str s =>
        match positions s (_num_bits self) (_num_hash self) with
        | Ok idxs => for_ idxs set_bit self
        | Raise e => (self, Raise e)
        end
    | _ => (self, Raise (TypeError "Word should be a string"))
    end.
Proof.
  destruct word; reflexivity.
Qed.

Lemma query_eq (word : value) (self : BloomFilter) :
  query word self =
    (self,
     match word with
     | Str s =>
         let* idxs := positions s (_num_bits self) (_num_hash self) in
         let* bits := comprehension (getitem (_bit_array self)) idxs in
         Ok (forallb id bits)
     | _ => Raise (TypeError "Word should be a string")
     end).
Proof.
  destruct word; try reflexivity.
  unfold query, mbind, lift. cbn [_validate_word]. rewrite _get_hashes_eq.
  now destruct (positions _ _ _).
Qed.

(** [query] hands back the instance it was given. *)
Lemma query_fst (word : value) (self : BloomFilter) : fst (query word self) = self.
Proof. now rewrite query_eq. Qed.

Lemma range_spec (a b i : Z) : In i (range a b) <-> a <= i < b.
Proof.
  unfold range. rewrite in_map_iff. split.
  - intros (k & <- & Hk). apply in_seq in Hk. lia.
  - intros H. exists (Z.to_nat (i - a)). split; [lia|]. apply in_seq. lia.
Qed.

Lemma range_length (a b : Z) : length (range a b) = Z.to_nat (b - a).
Proof. unfold range. now rewrite length_map, length_seq. Qed.

Lemma comprehension_mod (h1 h2 m : Z) (l : list Z) :
  m <> 0 ->
  comprehension (fun i => mod_ (h1 + i * h2) m) l =
    Ok (map (fun i => (h1 + i * h2) mod m) l).
Proof.
  intros Hm. induction l as [|i l IH]; cbn; [reflexivity|].
  unfold mod_ at 1. destruct (Z.eqb_spec m 0); [contradiction|]. cbn.
  now rewrite IH.
Qed.

(** On a word that UTF-8 can encode, the positions are those of the
    double hashing scheme, with [h1] read off the first 15 and [h2] off the
    last 16 hexadecimal digits of the digest. *)
Lemma positions_encoded (word : str) (m k : Z) (b : list N) :
  encode word = Ok b ->
  exists h1 h2,
    int16 (slice_to 15 (MD5.hexdigest b)) = Ok h1 /\
    int16 (slice_from 16 (MD5.hexdigest b)) = Ok h2 /\
    positions word m k =
      comprehension (fun i => mod_ (h1 + i * h2) m) (range 1 (k + 1)).
Proof.
  intros E. destruct (digest_halves b) as (h1 & h2 & E1 & E2).
  exists h1, h2. split; [exact E1|]. split; [exact E2|].
  unfold positions. rewrite E. cbn [bind]. rewrite E1. cbn [bind].
  rewrite E2. reflexivity.
Qed.

Lemma positions_unencoded (word : str) (m k : Z) (e : exn) :
  encode word = Raise e -> positions word m k = Raise e.
Proof. intros E. unfold positions. now rewrite E. Qed.

Lemma encode_cases (word : str) :
  (existsb is_surrogate word = false /\
   encode word = Ok (flat_map utf8_of_code_point word)) \/
  (existsb is_surrogate word = true /\ exists msg, encode word = Raise (UnicodeEncodeError msg)).
Proof.
  unfold encode. destruct (existsb is_surrogate word); [right|left]; eauto.
Qed.

Opaque positions.

(** What a call of [add] leaves behind. *)
Lemma add_covers (word : value) (self : BloomFilter) :
  exists l, fst (add word self) = with_bit_array self l /\
            covers (_bit_array self) l.
Proof.
  rewrite add_eq.
  assert (Hsame : exists l, self = with_bit_array self l /\ covers (_bit_array self) l).
  { exists (_bit_array self). now rewrite with_bit_array_same; auto using covers_refl. }
  destruct word as [| |s|]; try exact Hsame.
  destruct (positions s _ _) as [idxs|e]; [|exact Hsame].
  destruct (for_set_bit idxs self) as (l & r & -> & Hc & _). now exists l.
Qed.

Lemma add_all_covers (words : list value) (self : BloomFilter) :
  exists l, add_all words self = with_bit_array self l /\
            covers (_bit_array self) l.
Proof.
  unfold add_all. revert self.
  induction words as [|w words IH]; intros self; cbn [fold_left].
  - exists (_bit_array self). now rewrite with_bit_array_same; auto using covers_refl.
  - destruct (add_covers w self) as (l1 & -> & Hc1).
    destruct (IH (with_bit_array self l1)) as (l & -> & Hc).
    cbn [_bit_array with_bit_array] in Hc.
    exists l. split; [reflexivity|]. eapply covers_trans; eassumption.
Qed.

Lemma comprehension_getitem_true (l : list bool) (idxs : list Z) :
  Forall (fun i => getitem l i = Ok true) idxs ->
  exists bits, comprehension (getitem l) idxs = Ok bits /\ forallb id bits = true.
Proof.
  induction 1 as [|i idxs Hi _ (bits & E & Hb)]; cbn.
  - now exists [].
  - rewrite Hi, E. cbn. now exists (true :: bits).
Qed.

(* ------------------------------------------------------------------ *)
(** * [query] after [add] *)

Lemma comprehension_getitem_all (l : list bool) (idxs : list Z) (bits : list bool) :
  comprehension (getitem l) idxs = Ok bits -> forallb id bits = true ->
  Forall (fun i => getitem l i = Ok true) idxs.
Proof.
  revert bits. induction idxs as [|i idxs IH]; intros bits; cbn; [constructor|].
  destruct (getitem l i) as [b|] eqn:Ei; [|discriminate]. cbn [bind].
  destruct (comprehension (getitem l) idxs) as [bs|]; [|discriminate].
  cbn [bind]. intros [= <-]. cbn [forallb]. unfold id at 1.
  intros [-> Hbs]%andb_true_iff. constructor; [exact Ei | now apply (IH bs)].
Qed.

(** [query] is monotone: an item it finds is found after any further calls
    of [add]. *)
Lemma query_monotone (self : BloomFilter) (w : value) (others : list value) :
  query w self = (self, Ok true) ->
  query w (add_all others self) = (add_all others self, Ok true).
Proof.
  rewrite !query_eq. intros [= H]. f_equal.
  destruct w as [| |s|]; try discriminate.
  destruct (add_all_covers others self) as (l2 & -> & Hc).
  cbn [_bit_array _num_bits _num_hash with_bit_array].
  destruct (positions s (_num_bits self) (_num_hash self)) as [idxs|e];
    [|discriminate]. cbn [bind] in *.
  destruct (comprehension (getitem (_bit_array self)) idxs) as [bits|] eqn:E;
    [|discriminate]. cbn [bind] in H. injection H as H.
  destruct (comprehension_getitem_true l2 idxs) as (bits2 & -> & Hb).
  - eapply Forall_impl; [exact (comprehension_getitem_all _ _ _ E H)|].
    intros i Hi. cbn beta in *. eapply getitem_covers; eassumption.
  - cbn [bind]. now rewrite Hb.
Qed.

(** Right after [add(w)] has returned, [query(w)] finds [w]. *)
Lemma query_after_add (self self1 : BloomFilter) (w : value) :
  add w self = (self1, Ok tt) -> query w self1 = (self1, Ok true).
Proof.
  rewrite add_eq, query_eq. intros Hadd. f_equal.
  destruct w as [| |s|]; try discriminate.
  destruct (positions s (_num_bits self) (_num_hash self)) as [idxs|e] eqn:Hpos;
    [|discriminate].
  destruct (for_set_bit idxs self) as (l & r & Hrun & _ & Hset).
  rewrite Hadd in Hrun. injection Hrun as E1 E2. subst self1 r.
  cbn [_bit_array _num_bits _num_hash with_bit_array].
  rewrite Hpos. cbn [bind].
  destruct (comprehension_getitem_true l idxs (Hset eq_refl)) as (bits & -> & Hb).
  cbn [bind]. now rewrite Hb.
Qed.

(* ------------------------------------------------------------------ *)
(** * The two filters of [Driver.py] *)

Example driver_bloom1 : __init__ libm_driver (Int 100) (Int 400) = Ok bloom1.
Proof. vm_compute. reflexivity. Qed.

Example driver_bloom2 :
  with_false_positive_constraint libm_driver (Int 1000) (Flt (Float.lit 0x1.47ae147ae147bp-7%float))
  = Ok bloom2.
Proof. vm_compute. reflexivity. Qed.

(* ------------------------------------------------------------------ *)
(** * Validation *)

(** [_validate_num_words] and [_validate_num_bits] differ in their
    messages only. *)
Ltac int_validator_cases v :=
  unfold raises_TypeError, raises_ValueError;
  destruct v as [z|x|s|]; cbn;
  [ destruct (Z.leb_spec z 0) as [Hz|Hz]; (split; [|split]);
    [ split; [intros [msg H]; discriminate H | discriminate]
    | split; [intros _; exists z; auto | intros _; eauto]
    | intros z'; split; [discriminate | intros [[= ->] H]; lia]
    | split; [intros [msg H]; discriminate H | discriminate]
    | split; [intros [msg H]; discriminate H | intros [z' [[= ->] H]]; lia]
    | intros z'; split; [intros [= ->]; auto | intros [[= ->] _]; reflexivity] ]
  | (split; [|split]);
    [ split; eauto
    | split; [intros [msg H]; discriminate H | intros [z' [H _]]; discriminate H]
    | intros z'; split; [discriminate | intros [H _]; discriminate H] ] .. ].

Lemma _validate_num_words_cases (v : value) :
  (raises_TypeError (_validate_num_words v) <-> is_int v = false) /\
  (raises_ValueError (_validate_num_words v) <-> exists z, v = Int z /\ z <= 0) /\
  (forall z, _validate_num_words v = Ok z <-> v = Int z /\ 0 < z).
Proof. int_validator_cases v. Qed.

Lemma _validate_num_bits_cases (v : value) :
  (raises_TypeError (_validate_num_bits v) <-> is_int v = false) /\
  (raises_ValueError (_validate_num_bits v) <-> exists z, v = Int z /\ z <= 0) /\
  (forall z, _validate_num_bits v = Ok z <-> v = Int z /\ 0 < z).
Proof. int_validator_cases v. Qed.

Lemma _validate_word_cases (v : value) :
  (raises_TypeError (_validate_word v) <-> is_str v = false) /\
  (forall s, _validate_word v = Ok s <-> v = Str s).
Proof.
  unfold raises_TypeError. destruct v as [z|x|s|]; cbn; split.
  all: try (split; eauto; fail).
  all: try (intros s'; split; [discriminate | intros H; discriminate H]).
  - split; [intros [msg H]; discriminate H | discriminate].
  - intros s'. split; intros [= ->]; reflexivity.
Qed.

Lemma _validate_probability_cases (v : value) :
  (raises_TypeError (_validate_probability v) <-> is_number v = false) /\
  (raises_ValueError (_validate_probability v) <->
     is_number v = true /\ outside_unit_interval v) /\
  (forall x, _validate_probability v = Ok x <->
     v = Flt x /\ Float.leb x Float.zero = false /\ Float.leb Float.one x = false).
Proof.
  unfold raises_TypeError, raises_ValueError.
  destruct v as [z|x|s|];
    cbn [_validate_probability is_number outside_unit_interval];
    (split; [|split]).
  - replace ((z <=? 0) || (1 <=? z)) with true by (symmetry; apply orb_true_iff; lia).
    split; [intros [msg H]; discriminate H | discriminate].
  - replace ((z <=? 0) || (1 <=? z)) with true by (symmetry; apply orb_true_iff; lia).
    split; eauto.
  - replace ((z <=? 0) || (1 <=? z)) with true by (symmetry; apply orb_true_iff; lia).
    intros x. split; [discriminate | intros [H _]; discriminate H].
  - destruct (Float.leb x Float.zero || Float.leb Float.one x);
      (split; [intros [msg H]; discriminate H | discriminate]).
  - destruct (Float.leb x Float.zero), (Float.leb Float.one x); cbn [orb].
    all: split; [intros [msg H] | intros [_ [H|H]]]; eauto; discriminate H.
  - intros x'.
    destruct (Float.leb x Float.zero) eqn:E0, (Float.leb Float.one x) eqn:E1;
      cbn [orb].
    all: split; [intros H | intros (H & H0 & H1)]; try discriminate H.
    all: try (injection H as <-; congruence).
    injection H as <-. auto.
  - split; eauto.
  - split; [intros [msg H]; discriminate H | intros [H _]; discriminate H].
  - intros x. split; [discriminate | intros [H _]; discriminate H].
  - split; eauto.
  - split; [intros [msg H]; discriminate H | intros [H _]; discriminate H].
  - intros x. split; [discriminate | intros [H _]; discriminate H].
Qed.

(** [nan] is a number and neither [nan <= 0] nor [nan >= 1] holds: it
    passes [_validate_probability]. *)
Example nan_passes_validation : _validate_probability (Flt S754_nan) = Ok S754_nan.
Proof. reflexivity. Qed.

(* ------------------------------------------------------------------ *)
(** * Floats: signs, truncation and floor *)

Lemma binary_round_aux_sign (s : bool) (m e : Z) (l : location) :
  Float.is_nan (binary_round_aux Float.prec Float.emax s m e l) = true \/
  sign_bit (binary_round_aux Float.prec Float.emax s m e l) = s.
Proof.
  unfold binary_round_aux.
  destruct (shr_fexp _ _ m e l) as [mrs' e'].
  destruct (shr_fexp _ _ _ e' loc_Exact) as [mrs'' e''].
  destruct (shr_m mrs'') as [|p|p]; cbn; auto.
  destruct (e'' <=? _); cbn; auto.
Qed.

Lemma int_truediv_sign (n m : Z) (q : Float.float) :
  0 < n -> 0 < m -> Float.int_truediv m n = Ok q ->
  Float.is_nan q = true \/ sign_bit q = false.
Proof.
  intros Hn Hm. unfold Float.int_truediv.
  destruct m as [|pm|pm]; try lia. destruct n as [|pn|pn]; try lia.
  cbn [Z.ltb Z.compare xorb Z.abs Z.to_pos].
  unfold Float.div, SFdiv.
  destruct (SFdiv_core_binary _ _ _ _ _ _) as [[mz ez] lz].
  destruct (Float.is_inf _); [discriminate|]. intros [= <-].
  apply binary_round_aux_sign.
Qed.

Lemma mul_sign (a b : Float.float) :
  sign_bit a = false -> sign_bit b = false ->
  Float.is_nan (Float.mul a b) = true \/ sign_bit (Float.mul a b) = false.
Proof.
  unfold Float.mul.
  destruct a as [sa|sa| |sa ma ea], b as [sb|sb| |sb mb eb]; cbn [sign_bit];
    intros Ha Hb; subst; cbn [SFmul xorb Float.is_nan sign_bit]; auto.
  apply binary_round_aux_sign.
Qed.

(** On a float that is not negative, [int] is the floor. *)
Lemma to_int_floor (x : Float.float) (z : Z) :
  sign_bit x = false -> Float.to_int x = Ok z <-> floor_of x = Some z.
Proof.
  destruct x as [s|s| |s m e]; cbn [sign_bit Float.to_int Float.to_int_of floor_of].
  - intros _. split; intros [= <-]; reflexivity.
  - intros _. split; discriminate.
  - intros _. split; discriminate.
  - intros ->. cbn [Float.signed].
    destruct (0 <=? e) eqn:E.
    + split; intros [= <-]; reflexivity.
    + rewrite Z.quot_div_nonneg; [|lia|].
      * split; intros [= <-]; reflexivity.
      * apply Z.pow_pos_nonneg; lia.
Qed.

Lemma to_int_nan (x : Float.float) (z : Z) :
  Float.is_nan x = true -> Float.to_int x <> Ok z /\ floor_of x <> Some z.
Proof. destruct x; cbn; try discriminate. split; discriminate. Qed.

(* ------------------------------------------------------------------ *)
(** * Constructors *)

Section Constructors.
Variable L : Float.libm.

Lemma __init___valid (n m : Z) :
  0 < n -> 0 < m ->
  __init__ L (Int n) (Int m) =
  let* fp := _calculate_false_positive L n m in
  let* k := _calculate_num_hash L n m in
  Ok (Build n m fp k (repeat false (Z.to_nat m))).
Proof.
  intros Hn Hm. unfold __init__. cbn [_validate_num_words _validate_num_bits].
  destruct (Z.leb_spec n 0); [lia|]. destruct (Z.leb_spec m 0); [lia|].
  reflexivity.
Qed.

(** What the constructor returns is well formed, with every bit unset. *)
Lemma __init___wf (vn vm : value) (self : BloomFilter) :
  __init__ L vn vm = Ok self ->
  wf self /\ _bit_array self = repeat false (Z.to_nat (_num_bits self)) /\
  vn = Int (_num_words self) /\ vm = Int (_num_bits self).
Proof.
  unfold __init__.
  destruct (_validate_num_words_cases vn) as (_ & _ & Hn).
  destruct (_validate_num_bits_cases vm) as (_ & _ & Hm).
  destruct (_validate_num_words vn) as [n|]; [|discriminate].
  destruct (_validate_num_bits vm) as [m|]; [|discriminate].
  destruct (proj1 (Hn n) eq_refl) as [-> Hn'].
  destruct (proj1 (Hm m) eq_refl) as [-> Hm'].
  cbn [bind].
  destruct (_calculate_false_positive L n m) as [fp|]; [|discriminate].
  destruct (_calculate_num_hash L n m) as [k|]; [|discriminate].
  cbn [bind]. intros [= <-]. unfold wf. cbn.
  rewrite repeat_length. repeat split; lia.
Qed.

End Constructors.

(* ------------------------------------------------------------------ *)
(** * Floats strictly between 0 and 1 *)



(* ------------------------------------------------------------------ *)
(** * [add] and [query] on a well-formed instance *)

Lemma getitem_in_range {A} (l : list A) (i : Z) :
  0 <= i < Z.of_nat (length l) -> exists x, getitem l i = Ok x.
Proof.
  intros H. unfold getitem. rewrite norm_index_in_range by exact H.
  destruct (lookup_lt_is_Some_2 l (Z.to_nat i)) as [x ->]; [lia|]. eauto.
Qed.

Lemma comprehension_getitem_in_range {A} (l : list A) (idxs : list Z) :
  Forall (fun i => 0 <= i < Z.of_nat (length l)) idxs ->
  exists xs, comprehension (getitem l) idxs = Ok xs.
Proof.
  induction 1 as [|i idxs Hi _ [xs E]]; cbn; [eauto|].
  destruct (getitem_in_range l i Hi) as [x ->]. rewrite E. cbn. eauto.
Qed.

(** With a positive number of bits, the positions of a word are defined
    exactly when UTF-8 can encode the word, and they are subscripts of the
    bit array. *)
Lemma positions_wf (s : str) (m k : Z) :
  0 < m ->
  match positions s m k with
  | Ok idxs =>
      existsb is_surrogate s = false /\
      length idxs = Z.to_nat k /\ Forall (fun i => 0 <= i < m) idxs
  | Raise e =>
      existsb is_surrogate s = true /\ exists msg, e = UnicodeEncodeError msg
  end.
Proof.
  intros Hm. destruct (encode_cases s) as [[Hs E]|[Hs [msg E]]].
  - destruct (positions_encoded s m k _ E) as (h1 & h2 & _ & _ & ->).
    rewrite comprehension_mod by lia. split; [exact Hs|]. split.
    + rewrite length_map, range_length. f_equal. lia.
    + apply Forall_map, Forall_forall. intros i _. cbn.
      apply Z.mod_pos_bound, Hm.
  - rewrite (positions_unencoded _ _ _ _ E). eauto.
Qed.

(** [add] returns exactly on the strings UTF-8 can encode; when it raises,
    the instance is as before. *)
Lemma add_wf (self : BloomFilter) (w : value) :
  wf self ->
  match add w self with
  | (_, Ok _) => exists s, w = Str s /\ existsb is_surrogate s = false
  | (self', Raise e) =>
      self' = self /\
      match w with
      | Str s => existsb is_surrogate s = true /\ exists msg, e = UnicodeEncodeError msg
      | _ => e = TypeError "Word should be a string"
      end
  end.
Proof.
  intros [Hm Hlen]. rewrite add_eq. destruct w as [z|x|s|]; try (split; reflexivity).
  pose proof (positions_wf s (_num_bits self) (_num_hash self) Hm) as Hpos.
  destruct (positions s _ _) as [idxs|e]; [|tauto].
  destruct Hpos as (Hs & _ & Hidx).
  pose proof (for_set_bit_in_range idxs self) as Hrun.
  destruct (for_ idxs set_bit self) as [self' [[]|e]]; [eauto|].
  discriminate Hrun. now rewrite Hlen.
Qed.

Lemma query_wf (self : BloomFilter) (w : value) :
  wf self ->
  match snd (query w self) with
  | Ok _ => exists s, w = Str s /\ existsb is_surrogate s = false
  | Raise e =>
      match w with
      | Str s => existsb is_surrogate s = true /\ exists msg, e = UnicodeEncodeError msg
      | _ => e = TypeError "Word should be a string"
      end
  end.
Proof.
  intros [Hm Hlen]. rewrite query_eq. cbn [snd].
  destruct w as [z|x|s|]; try reflexivity.
  pose proof (positions_wf s (_num_bits self) (_num_hash self) Hm) as Hpos.
  destruct (positions s _ _) as [idxs|e]; [|exact Hpos].
  destruct Hpos as (Hs & _ & Hidx). cbn [bind].
  destruct (comprehension_getitem_in_range (_bit_array self) idxs) as [bits ->].
  - now rewrite Hlen.
  - cbn. eauto.
Qed.

(* ------------------------------------------------------------------ *)
(** * The text of an instance *)

Example str_int_examples :
  str_int 100 = "100"%string /\ str_int 0 = "0"%string /\ str_int (-5) = "-5"%string.
Proof. repeat split. Qed.

Lemma string_of_uint_one_line (d : Decimal.uint) :
  one_line (NilEmpty.string_of_uint d).
Proof. induction d; cbn; (split; [discriminate|assumption]) || exact I. Qed.

Lemma str_int_one_line (z : Z) : one_line (str_int z).
Proof.
  unfold str_int. destruct (Z.to_int z) as [d|d]; cbn.
  - apply string_of_uint_one_line.
  - split; [discriminate | apply string_of_uint_one_line].
Qed.

Lemma str_int_inj (z z' : Z) : str_int z = str_int z' -> z = z'.
Proof.
  unfold str_int. intros E. apply DecimalZ.to_int_inj.
  apply (f_equal NilEmpty.int_of_string) in E.
  rewrite !NilEmpty.isi in E. now injection E.
Qed.

Lemma append_first_line (a a' r r' : string) :
  one_line a -> one_line a' ->
  (a ++ String newline r)%string = (a' ++ String newline r')%string ->
  a = a' /\ r = r'.
Proof.
  revert a'. induction a as [|c a IH]; intros [|c' a']; cbn.
  - intros _ _ [= ->]. auto.
  - intros _ [Hc _] [= E _]. congruence.
  - intros [Hc _] _ [= E _]. congruence.
  - intros [_ Ha] [_ Ha'] [= -> E]. destruct (IH a' Ha Ha' E) as [-> ->]. auto.
Qed.

(* ------------------------------------------------------------------ *)
(** * Double hashing *)

(** X1.  What [_get_hashes] does compute on a well-formed instance and a word
    that UTF-8 can encode: [num_hash] positions below [num_bits], by double
    hashing from the first 15 and the last 16 digits of the digest. *)
Lemma _get_hashes_double_hashing (self : BloomFilter) (s : str) :
  wf self -> 0 <= num_hash self -> existsb is_surrogate s = false ->
  exists h1 h2 idxs,
    int16 (slice_to 15 (MD5.hexdigest (flat_map utf8_of_code_point s))) = Ok h1 /\
    int16 (slice_from 16 (MD5.hexdigest (flat_map utf8_of_code_point s))) = Ok h2 /\
    _get_hashes s self = (self, Ok idxs) /\
    idxs = map (fun i => (h1 + i * h2) mod num_bits self) (range 1 (num_hash self + 1)) /\
    Z.of_nat (length idxs) = num_hash self /\
    Forall (fun i => 0 <= i < num_bits self) idxs.
Proof.
  unfold num_hash, num_bits. intros [Hm _] Hk Hs.
  destruct (encode_cases s) as [[_ E]|[Hs' _]]; [|congruence].
  destruct (positions_encoded s (_num_bits self) (_num_hash self) _ E)
    as (h1 & h2 & E1 & E2 & Hpos).
  rewrite comprehension_mod in Hpos by lia.
  exists h1, h2. eexists. split; [exact E1|]. split; [exact E2|].
  rewrite _get_hashes_eq, Hpos. split; [reflexivity|]. split; [reflexivity|]. split.
  - rewrite length_map, range_length. lia.
  - apply Forall_map, Forall_forall. intros i _. cbn.
    apply Z.mod_pos_bound, Hm.
Qed.

Lemma _get_hashes_double_hashing_witness :
  exists h1 h2 idxs,
    int16 (slice_to 15 (MD5.hexdigest (flat_map utf8_of_code_point (str_of_string "a")))) = Ok h1 /\
    int16 (slice_from 16 (MD5.hexdigest (flat_map utf8_of_code_point (str_of_string "a")))) = Ok h2 /\
    _get_hashes (str_of_string "a") bloom1 = (bloom1, Ok idxs) /\
    idxs = map (fun i => (h1 + i * h2) mod num_bits bloom1) (range 1 (num_hash bloom1 + 1)) /\
    Z.of_nat (length idxs) = num_hash bloom1 /\
    Forall (fun i => 0 <= i < num_bits bloom1) idxs.
Proof.
  apply (_get_hashes_double_hashing bloom1 (str_of_string "a")).
  - split; reflexivity.
  - discriminate.
  - reflexivity.
Defined.

(** The second filter of [Driver.py] stays within its bound of 0.01. *)
Example driver_bloom2_within_bound :
  Float.leb (false_positive_probability bloom2) (Float.lit 0x1.47ae147ae147bp-7%float)
  = true.
Proof. vm_compute. reflexivity. Qed.

(* ------------------------------------------------------------------ *)
(** * Beyond the specification: the bit array after [add] *)

Lemma wf_with_bit_array (self : BloomFilter) (l : list bool) :
  wf self -> length l = length (_bit_array self) -> wf (with_bit_array self l).
Proof. intros [Hm Hl] E. split; cbn; [exact Hm | now rewrite E]. Qed.

Lemma hash_positions_with_bit_array (self : BloomFilter) (l : list bool) (w : value) :
  hash_positions (with_bit_array self l) w = hash_positions self w.
Proof. destruct w; reflexivity. Qed.

Lemma hash_positions_in_range (self : BloomFilter) (w : value) :
  0 < _num_bits self -> Forall (fun i => 0 <= i < _num_bits self) (hash_positions self w).
Proof.
  intros Hm. destruct w as [| |s|]; cbn [hash_positions]; try constructor.
  rewrite _get_hashes_eq. cbn [snd].
  pose proof (positions_wf s (_num_bits self) (_num_hash self) Hm) as H.
  destruct (positions s _ _); [tauto | constructor].
Qed.

Lemma add_hash_positions (self : BloomFilter) (w : value) :
  wf self -> add w self = for_ (hash_positions self w) set_bit self \/
             (fst (add w self) = self /\ hash_positions self w = []).
Proof.
  intros _. rewrite add_eq. destruct w as [| |s|]; cbn [hash_positions fst]; auto.
  rewrite _get_hashes_eq. cbn [snd].
  destruct (positions s _ _); auto.
Qed.

(** The loop of [add] on subscripts in range: every one of them is set,
    and no other bit changes. *)
Lemma for_set_bit_lookup (idxs : list Z) (self : BloomFilter) :
  Forall (fun i => 0 <= i < Z.of_nat (length (_bit_array self))) idxs ->
  exists l,
    for_ idxs set_bit self = (with_bit_array self l, Ok tt) /\
    length l = length (_bit_array self) /\
    forall k : nat,
      l !! k = (fun b => b || existsb (Z.eqb (Z.of_nat k)) idxs) <$> _bit_array self !! k.
Proof.
  revert self. induction idxs as [|i idxs IH]; intros self H.
  - exists (_bit_array self). cbn [for_]. unfold ret. rewrite with_bit_array_same.
    split; [reflexivity|]. split; [reflexivity|]. intros k. cbn [existsb].
    destruct (_bit_array self !! k) as [b|]; cbn; [now rewrite orb_false_r | reflexivity].
  - inversion H as [|? ? Hi Hrest]; subst.
    cbn [for_]. unfold mbind, set_bit at 1. unfold setitem.
    rewrite norm_index_in_range by exact Hi.
    destruct (IH (with_bit_array self (<[Z.to_nat i := true]> (_bit_array self))))
      as (l & Hrun & Hlen & Hl).
    { cbn [_bit_array with_bit_array]. now rewrite length_insert. }
    cbn [_bit_array with_bit_array] in *. rewrite length_insert in Hlen.
    exists l. rewrite Hrun. split; [reflexivity|]. split; [exact Hlen|].
    intros k. rewrite Hl. cbn [existsb].
    destruct (decide (Z.to_nat i = k)) as [<-|Hne].
    + rewrite list_lookup_insert_eq by lia.
      destruct (lookup_lt_is_Some_2 (_bit_array self) (Z.to_nat i)) as [b ->]; [lia|].
      cbn. rewrite Z2Nat.id by lia. rewrite Z.eqb_refl. now rewrite orb_true_r.
    + rewrite list_lookup_insert_ne by exact Hne.
      destruct (Z.eqb_spec (Z.of_nat k) i) as [E|_]; [lia|]. reflexivity.
Qed.

(** What [add] leaves behind on a well-formed instance, bit by bit. *)
Lemma add_lookup (self : BloomFilter) (w : value) :
  wf self ->
  exists l,
    fst (add w self) = with_bit_array self l /\
    length l = length (_bit_array self) /\
    forall k : nat,
      l !! k = (fun b => b || existsb (Z.eqb (Z.of_nat k)) (hash_positions self w))
                 <$> _bit_array self !! k.
Proof.
  intros Hwf. destruct (add_hash_positions self w Hwf) as [E|[E ->]].
  - destruct (for_set_bit_lookup (hash_positions self w) self) as (l & Hrun & Hlen & Hl).
    { destruct Hwf as [Hm Hlen]. rewrite Hlen. now apply hash_positions_in_range. }
    exists l. rewrite E, Hrun. auto.
  - exists (_bit_array self). rewrite E, with_bit_array_same.
    split; [reflexivity|]. split; [reflexivity|]. intros k. cbn [existsb].
    destruct (_bit_array self !! k) as [b|]; cbn; [now rewrite orb_false_r | reflexivity].
Qed.

Lemma add_all_lookup (ws : list value) (self : BloomFilter) :
  wf self ->
  exists l,
    add_all ws self = with_bit_array self l /\
    length l = length (_bit_array self) /\
    forall k : nat,
      l !! k = (fun b => b || hit_by self ws (Z.of_nat k)) <$> _bit_array self !! k.
Proof.
  unfold add_all, hit_by. revert self.
  induction ws as [|w ws IH]; intros self Hwf; cbn [fold_left existsb].
  - exists (_bit_array self). rewrite with_bit_array_same.
    split; [reflexivity|]. split; [reflexivity|]. intros k.
    destruct (_bit_array self !! k) as [b|]; cbn; [now rewrite orb_false_r | reflexivity].
  - destruct (add_lookup self w Hwf) as (l1 & -> & Hlen1 & Hl1).
    destruct (IH (with_bit_array self l1)) as (l & -> & Hlen & Hl).
    { now apply wf_with_bit_array. }
    cbn [_bit_array with_bit_array] in *.
    exists l. split; [reflexivity|]. split; [congruence|].
    intros k. rewrite Hl, Hl1.
    destruct (_bit_array self !! k) as [b|]; cbn; [|reflexivity].
    rewrite <- orb_assoc. do 3 f_equal.
Qed.

Lemma lookup_repeat {A} (x : A) (n k : nat) :
  (k < n)%nat -> repeat x n !! k = Some x.
Proof.
  revert k. induction n as [|n IH]; intros k Hk; [lia|].
  destruct k as [|k]; cbn; [reflexivity | apply IH; lia].
Qed.

Lemma getitem_lookup {A} (l : list A) (i : Z) (x : A) :
  0 <= i < Z.of_nat (length l) -> l !! Z.to_nat i = Some x -> getitem l i = Ok x.
Proof.
  intros Hi E. unfold getitem. rewrite norm_index_in_range by exact Hi.
  now rewrite E.
Qed.

Lemma comprehension_ok {A B} (f : A -> result B) (g : A -> B) (l : list A) :
  Forall (fun a => f a = Ok (g a)) l -> comprehension f l = Ok (map g l).
Proof.
  induction 1 as [|a l Ha _ IH]; cbn [comprehension map]; [reflexivity|].
  now rewrite Ha, IH.
Qed.

Lemma forallb_id_map {A} (g : A -> bool) (l : list A) :
  forallb id (map g l) = forallb g l.
Proof. induction l as [|a l IH]; cbn; [reflexivity | now rewrite IH]. Qed.

Lemma existsb_same_elements {A} (f : A -> bool) (l l' : list A) :
  (forall a, In a l <-> In a l') -> existsb f l = existsb f l'.
Proof.
  intros H. apply eq_true_iff_eq. rewrite !existsb_exists.
  split; intros (a & Ha & Hf); exists a; split; try assumption; now apply H.
Qed.

(** [query] on a well-formed instance, bit by bit. *)
Lemma query_lookup (self : BloomFilter) (s : str) (g : Z -> bool) :
  wf self -> existsb is_surrogate s = false ->
  (forall i, 0 <= i < _num_bits self -> _bit_array self !! Z.to_nat i = Some (g i)) ->
  query (Str s) self = (self, Ok (forallb g (hash_positions self (Str s)))).
Proof.
  intros [Hm Hlen] Hs Hg. rewrite query_eq. f_equal.
  cbn [hash_positions]. rewrite _get_hashes_eq. cbn [snd].
  pose proof (positions_wf s (_num_bits self) (_num_hash self) Hm) as Hpos.
  destruct (positions s _ _) as [idxs|e]; [|destruct Hpos; congruence].
  destruct Hpos as (_ & _ & Hidx). cbn [bind].
  rewrite (comprehension_ok _ g).
  - cbn [bind]. now rewrite forallb_id_map.
  - eapply Forall_impl; [exact Hidx|]. intros i Hi. cbn beta in *.
    apply getitem_lookup; [lia | now apply Hg].
Qed.

(* ------------------------------------------------------------------ *)
(** * Beyond the specification: counting the bits that are set *)

Lemma filter_insert_le (l : list bool) (k : nat) :
  (length (List.filter id (<[k := true]> l)) <= S (length (List.filter id l)))%nat.
Proof.
  revert k. induction l as [|b l IH]; intros [|k]; cbn; try lia.
  - destruct b; cbn; lia.
  - specialize (IH k). destruct b; cbn; [apply le_n_S|]; exact IH.
Qed.

Lemma covers_filter_le (l l' : list bool) :
  covers l l' -> (length (List.filter id l) <= length (List.filter id l'))%nat.
Proof.
  intros [Hlen Hc]. revert l' Hlen Hc.
  induction l as [|b l IH]; intros [|b' l'] Hlen Hc; cbn in Hlen; try lia.
  assert (IH' : (length (List.filter id l) <= length (List.filter id l'))%nat).
  { apply IH; [lia|]. intros k Hk. exact (Hc (S k) Hk). }
  pose proof (Hc 0%nat) as H0. cbn in H0.
  destruct b; cbn.
  - specialize (H0 eq_refl). injection H0 as ->. cbn. lia.
  - destruct b'; cbn; lia.
Qed.

Lemma for_set_bit_count (idxs : list Z) (self : BloomFilter) :
  (set_bits (fst (for_ idxs set_bit self)) <= set_bits self + length idxs)%nat.
Proof.
  revert self. induction idxs as [|i idxs IH]; intros self.
  - cbn. lia.
  - cbn [for_ length]. unfold mbind, set_bit at 1. unfold setitem.
    destruct (norm_index (_bit_array self) i) as [k|]; [|cbn [fst]; lia].
    specialize (IH (with_bit_array self (<[k := true]> (_bit_array self)))).
    pose proof (filter_insert_le (_bit_array self) k) as Hk.
    unfold set_bits in *. cbn [_bit_array with_bit_array] in IH. lia.
Qed.

Lemma comprehension_length {A B} (f : A -> result B) (l : list A) (l' : list B) :
  comprehension f l = Ok l' -> length l' = length l.
Proof.
  revert l'. induction l as [|a l IH]; intros l'; cbn [comprehension].
  - intros [= <-]. reflexivity.
  - destruct (f a) as [b|]; [|discriminate]. cbn [bind].
    destruct (comprehension f l) as [bs|]; [|discriminate]. cbn [bind].
    intros [= <-]. cbn. now rewrite (IH bs).
Qed.

Lemma hash_positions_length (self : BloomFilter) (w : value) :
  (length (hash_positions self w) <= Z.to_nat (_num_hash self))%nat.
Proof.
  destruct w as [| |s|]; cbn [hash_positions length]; try lia.
  rewrite _get_hashes_eq. cbn [snd].
  destruct (positions s (_num_bits self) (_num_hash self)) as [idxs|e] eqn:E;
    [|cbn; lia].
  destruct (encode_cases s) as [[_ Eb]|[_ [msg Eb]]].
  - destruct (positions_encoded s (_num_bits self) (_num_hash self) _ Eb)
      as (h1 & h2 & _ & _ & Hpos).
    rewrite Hpos in E. apply comprehension_length in E.
    rewrite E, range_length. lia.
  - rewrite (positions_unencoded _ _ _ _ Eb) in E. discriminate.
Qed.

Lemma add_set_bits (self : BloomFilter) (w : value) :
  (set_bits self <= set_bits (fst (add w self)) <=
     set_bits self + Z.to_nat (_num_hash self))%nat.
Proof.
  split.
  - destruct (add_covers w self) as (l & -> & Hc).
    unfold set_bits. cbn [_bit_array with_bit_array]. now apply covers_filter_le.
  - pose proof (hash_positions_length self w) as Hlen.
    rewrite add_eq. destruct w as [| |s|]; cbn [fst]; try lia.
    cbn [hash_positions] in Hlen. rewrite _get_hashes_eq in Hlen. cbn [snd] in Hlen.
    destruct (positions s _ _) as [idxs|e]; cbn [fst]; [|lia].
    pose proof (for_set_bit_count idxs self). lia.
Qed.

(* ------------------------------------------------------------------ *)
(** * Beyond the specification: what the constructors return *)

Lemma with_false_positive_constraint_cases (L : Float.libm) (vn vp : value)
  (self : BloomFilter) :
  with_false_positive_constraint L vn vp = Ok self ->
  exists n p m,
    _validate_num_words vn = Ok n /\ _validate_probability vp = Ok p /\
    _calculate_num_bits L n p = Ok m /\ __init__ L vn (Int m) = Ok self.
Proof.
  unfold with_false_positive_constraint.
  destruct (_validate_num_words vn) as [n|] eqn:En; [|discriminate]. cbn [bind].
  destruct (_validate_probability vp) as [p|] eqn:Ep; [|discriminate]. cbn [bind].
  destruct (_calculate_num_bits L n p) as [m|] eqn:Em; [|discriminate]. cbn [bind].
  intros H. exists n, p, m. repeat split; assumption || reflexivity.
Qed.

Lemma constructed_init (L : Float.libm) (self : BloomFilter) :
  constructed L self -> exists vn vm, __init__ L vn vm = Ok self.
Proof.
  intros [H|(vn & vp & H)]; [exact H|].
  destruct (with_false_positive_constraint_cases L vn vp self H)
    as (n & p & m & _ & _ & _ & Hinit). eauto.
Qed.

Lemma constructed_wf (L : Float.libm) (self : BloomFilter) :
  constructed L self ->
  wf self /\ _bit_array self = repeat false (Z.to_nat (_num_bits self)).
Proof.
  intros H. destruct (constructed_init L self H) as (vn & vm & Hinit).
  destruct (__init___wf L vn vm self Hinit) as (Hwf & Hbits & _). auto.
Qed.

Lemma floor_of_nonneg (x : Float.float) (z : Z) :
  sign_bit x = false -> floor_of x = Some z -> 0 <= z.
Proof.
  destruct x as [s|s| |s m e]; cbn [sign_bit floor_of]; try discriminate.
  - intros _ [= <-]. lia.
  - intros -> [= <-]. cbn [Float.signed].
    destruct (0 <=? e) eqn:E.
    + apply Z.mul_nonneg_nonneg; [lia|]. apply Z.pow_nonneg. lia.
    + apply Z.div_pos; [lia|]. apply Z.pow_pos_nonneg; lia.
Qed.

Lemma _calculate_num_hash_nonneg (L : Float.libm) (n m k : Z) :
  0 < n -> 0 < m -> sign_bit (Float.math_log_2 L) = false ->
  _calculate_num_hash L n m = Ok k -> 0 <= k.
Proof.
  intros Hn Hm Hl2. unfold _calculate_num_hash.
  destruct (Float.int_truediv m n) as [q|] eqn:Eq; [|discriminate]. cbn [bind].
  intros Hk.
  destruct (int_truediv_sign n m q Hn Hm Eq) as [Hq|Hq].
  - assert (Hnan : Float.is_nan (Float.mul q (Float.math_log_2 L)) = true)
      by (destruct q; try discriminate Hq; reflexivity).
    destruct (to_int_nan _ k Hnan). contradiction.
  - destruct (mul_sign q _ Hq Hl2) as [Hnan|Hs].
    + destruct (to_int_nan _ k Hnan). contradiction.
    + apply (floor_of_nonneg _ k Hs). now apply to_int_floor.
Qed.

Lemma __init___cases (L : Float.libm) (vn vm : value) (self : BloomFilter) :
  __init__ L vn vm = Ok self ->
  vn = Int (_num_words self) /\ vm = Int (_num_bits self) /\
  0 < _num_words self /\ 0 < _num_bits self /\
  _calculate_false_positive L (_num_words self) (_num_bits self)
    = Ok (_false_positive_prob self) /\
  _calculate_num_hash L (_num_words self) (_num_bits self) = Ok (_num_hash self).
Proof.
  unfold __init__.
  destruct (_validate_num_words_cases vn) as (_ & _ & Hn).
  destruct (_validate_num_bits_cases vm) as (_ & _ & Hm).
  destruct (_validate_num_words vn) as [n|]; [|discriminate].
  destruct (_validate_num_bits vm) as [m|]; [|discriminate].
  destruct (proj1 (Hn n) eq_refl) as [-> Hn'].
  destruct (proj1 (Hm m) eq_refl) as [-> Hm'].
  cbn [bind].
  destruct (_calculate_false_positive L n m) as [fp|] eqn:Efp; [|discriminate].
  destruct (_calculate_num_hash L n m) as [k|] eqn:Ek; [|discriminate].
  cbn [bind]. intros [= <-]. cbn. repeat split; assumption || reflexivity.
Qed.

(** The text of an instance that [BloomFilter(...)] has returned, after any
    calls of [add]: the two arguments and the estimate computed from
    them. *)
Lemma __str___after_init (float_str : Float.float -> string) (L : Float.libm)
  (vn vm : value) (self : BloomFilter) (ws : list value) :
  __init__ L vn vm = Ok self ->
  exists (n m : Z) (fp : Float.float),
    vn = Int n /\ vm = Int m /\
    _calculate_false_positive L n m = Ok fp /\
    __str__ float_str (add_all ws self) =
      ("Word Capacity = " ++ str_int n ++ nl
       ++ "Number of bits = " ++ str_int m ++ nl
       ++ "False positive probability = " ++ float_str fp)%string.
Proof.
  intros Hinit.
  destruct (__init___cases L vn vm self Hinit) as (Hn & Hm & _ & _ & Hfp & _).
  exists (_num_words self), (_num_bits self), (_false_positive_prob self).
  split; [exact Hn|]. split; [exact Hm|]. split; [exact Hfp|].
  destruct (add_all_covers ws self) as (l & -> & _). reflexivity.
Qed.

Lemma mul_nan_r (x : Float.float) : Float.mul x S754_nan = S754_nan.
Proof. destruct x; reflexivity. Qed.

Lemma div_nan_l (y : Float.float) : Float.div S754_nan y = S754_nan.
Proof. destruct y; reflexivity. Qed.

(* ------------------------------------------------------------------ *)
(** * Beyond the specification: [Driver.py] *)

Lemma string_append_assoc (a b c : string) : ((a ++ b) ++ c = a ++ b ++ c)%string.
Proof. induction a as [|x a IH]; cbn; [reflexivity | now rewrite IH]. Qed.

(** A string of characters below 256, the text of an int among them, holds
    no surrogate. *)
Lemma str_of_string_encodable (s : string) :
  existsb is_surrogate (str_of_string s) = false.
Proof.
  unfold str_of_string.
  induction s as [|c s IH]; cbn [list_ascii_of_string map existsb]; [reflexivity|].
  rewrite IH, orb_false_r. unfold is_surrogate.
  pose proof (N_ascii_bounded c) as Hc.
  destruct (N.leb_spec 0xD800 (N_of_ascii c)); [lia | reflexivity].
Qed.

Lemma str__encodable (i : Z) :
  exists s, Driver.str_ i = Str s /\ existsb is_surrogate s = false.
Proof. eexists. split; [reflexivity | apply str_of_string_encodable]. Qed.

Lemma wf_add (self : BloomFilter) (w : value) : wf self -> wf (fst (add w self)).
Proof.
  intros Hwf. destruct (add_covers w self) as (l & -> & Hlen & _).
  now apply wf_with_bit_array.
Qed.

Lemma wf_add_all (ws : list value) (self : BloomFilter) :
  wf self -> wf (add_all ws self).
Proof.
  intros Hwf. destruct (add_all_covers ws self) as (l & -> & Hlen & _).
  now apply wf_with_bit_array.
Qed.

Lemma add_returns (self : BloomFilter) (s : str) :
  wf self -> existsb is_surrogate s = false ->
  add (Str s) self = (fst (add (Str s) self), Ok tt).
Proof.
  intros Hwf Hs. pose proof (add_wf self (Str s) Hwf) as H.
  destruct (add (Str s) self) as [self1 [[]|e]]; [reflexivity|].
  destruct H as (_ & Hs' & _). congruence.
Qed.

(** A loop of [add] over items that are strings UTF-8 can encode runs to
    its end. *)
Lemma for_add_returns {A} (f : A -> value) (l : list A) (self : BloomFilter) :
  wf self ->
  (forall a, exists s, f a = Str s /\ existsb is_surrogate s = false) ->
  for_ l (fun a => add (f a)) self = (add_all (map f l) self, Ok tt).
Proof.
  intros Hwf Hf. revert self Hwf.
  induction l as [|a l IH]; intros self Hwf; [reflexivity|].
  cbn [for_ map]. unfold mbind, add_all. cbn [fold_left].
  destruct (Hf a) as (s & -> & Hs). rewrite (add_returns self s Hwf Hs).
  cbn [fst]. apply IH. now apply wf_add.
Qed.

Lemma query_member (self : BloomFilter) (ws : list value) (s : str) :
  wf self -> In (Str s) ws -> existsb is_surrogate s = false ->
  query (Str s) (add_all ws self) = (add_all ws self, Ok true).
Proof.
  intros Hwf Hin Hs. destruct (in_split _ _ Hin) as (l1 & l2 & ->).
  unfold add_all. rewrite fold_left_app. cbn [fold_left].
  fold (add_all l1 self). set (self0 := add_all l1 self).
  fold (add_all l2 (fst (add (Str s) self0))).
  apply query_monotone. eapply query_after_add.
  apply add_returns; [apply wf_add_all, Hwf | exact Hs].
Qed.

Lemma comprehension_m_ok {A B} (f : A -> method B) (g : A -> B) (l : list A)
  (self : BloomFilter) :
  Forall (fun a => f a self = (self, Ok (g a))) l ->
  Driver.comprehension_m f l self = (self, Ok (map g l)).
Proof.
  induction 1 as [|a l Ha _ IH]; [reflexivity|].
  cbn [Driver.comprehension_m map]. unfold mbind. rewrite Ha, IH. reflexivity.
Qed.

Lemma sum_from (l : list bool) (a : Z) :
  fold_left (fun acc b => acc + Z.b2z b) l a = a + Driver.sum l.
Proof.
  unfold Driver.sum. revert a. induction l as [|b l IH]; intros a; cbn [fold_left].
  - lia.
  - rewrite (IH (a + Z.b2z b)), (IH (0 + Z.b2z b)). lia.
Qed.

Lemma sum_cons (b : bool) (l : list bool) :
  Driver.sum (b :: l) = Z.b2z b + Driver.sum l.
Proof. unfold Driver.sum at 1. cbn [fold_left]. now rewrite sum_from. Qed.

Lemma sum_bounds (l : list bool) : 0 <= Driver.sum l <= Z.of_nat (length l).
Proof.
  induction l as [|b l IH]; [cbn; lia|].
  rewrite sum_cons. cbn [length]. destruct b; cbn [Z.b2z]; lia.
Qed.

Lemma sum_all_true {A} (l : list A) :
  Driver.sum (map (fun _ => true) l) = Z.of_nat (length l).
Proof.
  induction l as [|a l IH]; [reflexivity|].
  cbn [map]. rewrite sum_cons, IH. cbn [length Z.b2z]. lia.
Qed.

(** A quotient [hits / 10000] of ints with [0 <= hits <= 10000] is a
    float: checked on each of them. *)
Lemma rate_defined (hits : Z) :
  0 <= hits <= 10000 -> exists rate, Float.int_truediv hits 10000 = Ok rate.
Proof.
  intros H.
  assert (Hall : forallb (fun h => match Float.int_truediv h 10000 with
                                   | Ok _ => true
                                   | Raise _ => false
                                   end) (range 0 10001) = true)
    by (vm_compute; reflexivity).
  rewrite forallb_forall in Hall. specialize (Hall hits).
  destruct (Float.int_truediv hits 10000) as [rate|e]; [eauto|].
  discriminate Hall. apply range_spec. lia.
Qed.

(** On a well-formed instance, a list comprehension of [query] over the
    texts of ints returns a list of answers and leaves the instance. *)
Lemma comprehension_m_query (self : BloomFilter) (l : list Z) :
  wf self ->
  exists answers,
    Driver.comprehension_m (fun i => query (Driver.str_ i)) l self = (self, Ok answers) /\
    Forall2 (fun i b => query (Driver.str_ i) self = (self, Ok b)) l answers.
Proof.
  intros Hwf. induction l as [|i l (answers & IH & Hall)].
  - exists []. split; [reflexivity | constructor].
  - destruct (str__encodable i) as (s & Es & Hs).
    pose proof (query_wf self (Str s) Hwf) as Hq.
    pose proof (query_fst (Str s) self) as Hq1.
    destruct (query (Str s) self) as [self' [b|e]] eqn:E; cbn [fst snd] in *.
    + subst self'. exists (b :: answers).
      cbn [Driver.comprehension_m]. unfold mbind. rewrite Es, E, IH.
      split; [reflexivity|]. constructor; [now rewrite Es | exact Hall].
    + destruct Hq as [Hs' _]. congruence.
Qed.

Lemma populate_filter_run (self : BloomFilter) (out : string) :
  wf self ->
  Driver.populate_filter (self, out) =
    ((add_all (map Driver.str_ (range 0 (num_words self))) self,
      (out ++ ("Added " ++ str_int (num_words self) ++ " words to bloom filter." ++ nl)
           ++ nl)%string),
     Ok tt).
Proof.
  intros Hwf.
  unfold Driver.populate_filter, Driver.pbind, Driver.call, Driver.get_num_words,
    Driver.print. cbn [fst snd].
  rewrite (for_add_returns Driver.str_ _ self Hwf str__encodable). reflexivity.
Qed.

Lemma test_false_negative_run (self : BloomFilter) (out : string) :
  wf self ->
  Driver.test_false_negative
    (add_all (map Driver.str_ (range 0 (num_words self))) self, out) =
    ((add_all (map Driver.str_ (range 0 (num_words self))) self,
      ((out ++ "Querying for items previously added to the filter:" ++ nl)
         ++ (str_int (Z.max 0 (num_words self)) ++ " out of "
               ++ str_int (num_words self) ++ " words found." ++ nl)
         ++ nl)%string),
     Ok tt).
Proof.
  intros Hwf. set (ws := map Driver.str_ (range 0 (num_words self))).
  assert (Hn : num_words (add_all ws self) = num_words self)
    by (destruct (add_all_covers ws self) as (l & -> & _); reflexivity).
  unfold Driver.test_false_negative, Driver.pbind, Driver.call, Driver.get_num_words,
    Driver.print. cbn [fst snd]. rewrite Hn.
  rewrite (comprehension_m_ok _ (fun _ => true)).
  - rewrite sum_all_true, range_length.
    replace (Z.of_nat (Z.to_nat (num_words self - 0))) with (Z.max 0 (num_words self))
      by lia.
    reflexivity.
  - apply List.Forall_forall. intros i Hi.
    destruct (str__encodable i) as (s & Es & Hs).
    rewrite Es. apply (query_member self ws s Hwf); [|exact Hs].
    rewrite <- Es. unfold ws. now apply in_map.
Qed.

Lemma test_false_positive_run (float_str : Float.float -> string)
  (self : BloomFilter) (out : string) :
  wf self ->
  exists (answers : list bool) (rate : Float.float),
    Forall2 (fun i b => query (Driver.str_ i) self = (self, Ok b))
            (range (num_words self) (num_words self + 10000)) answers /\
    0 <= Driver.sum answers <= 10000 /\
    Float.int_truediv (Driver.sum answers) 10000 = Ok rate /\
    Driver.test_false_positive float_str (self, out) =
      ((self,
        ((out ++ "Querying for 10,000 new words never added to the filter:" ++ nl)
           ++ ("The empirical false positive rate is " ++ float_str rate) ++ nl)%string),
       Ok tt).
Proof.
  intros Hwf.
  destruct (comprehension_m_query self (range (num_words self) (num_words self + 10000)) Hwf)
    as (answers & Hrun & Hall).
  assert (Hsum : 0 <= Driver.sum answers <= 10000).
  { pose proof (sum_bounds answers) as Hb.
    apply Forall2_length in Hall. rewrite range_length in Hall.
    replace (num_words self + 10000 - num_words self) with 10000 in Hall by lia.
    rewrite <- Hall in Hb. lia. }
  destruct (rate_defined _ Hsum) as [rate Hrate].
  exists answers, rate. split; [exact Hall|]. split; [exact Hsum|].
  split; [exact Hrate|].
  unfold Driver.test_false_positive, Driver.pbind, Driver.call, Driver.get_num_words,
    Driver.print, Driver.of_result. cbn [fst snd]. rewrite Hrun, Hrate. reflexivity.
Qed.

(** The three calls of [main] on a filter for [n >= 0] words. *)
Lemma run_filter_run (float_str : Float.float -> string) (self : BloomFilter)
  (out : string) :
  wf self -> 0 <= num_words self ->
  exists (hits : Z) (rate : Float.float) (self' : BloomFilter),
    0 <= hits <= 10000 /\
    Float.int_truediv hits 10000 = Ok rate /\
    Driver.run_filter float_str (self, out) =
      ((self',
        (out ++ "Added " ++ str_int (num_words self) ++ " words to bloom filter." ++ nl ++ nl
             ++ "Querying for items previously added to the filter:" ++ nl
             ++ str_int (num_words self) ++ " out of " ++ str_int (num_words self)
             ++ " words found." ++ nl ++ nl
             ++ "Querying for 10,000 new words never added to the filter:" ++ nl
             ++ "The empirical false positive rate is " ++ float_str rate ++ nl)%string),
       Ok tt).
Proof.
  intros Hwf Hn. set (ws := map Driver.str_ (range 0 (num_words self))).
  unfold Driver.run_filter, Driver.pbind.
  rewrite (populate_filter_run self out Hwf).
  rewrite (test_false_negative_run self _ Hwf). fold ws.
  destruct (test_false_positive_run float_str (add_all ws self)
              (((out ++ ("Added " ++ str_int (num_words self) ++ " words to bloom filter." ++ nl)
                     ++ nl)
                  ++ "Querying for items previously added to the filter:" ++ nl)
                 ++ (str_int (Z.max 0 (num_words self)) ++ " out of "
                       ++ str_int (num_words self) ++ " words found." ++ nl)
                 ++ nl)%string
              (wf_add_all ws self Hwf))
    as (answers & rate & _ & Hsum & Hrate & Hrun).
  exists (Driver.sum answers), rate, (add_all ws self).
  split; [exact Hsum|]. split; [exact Hrate|].
  rewrite Hrun. rewrite Z.max_r by exact Hn.
  rewrite !string_append_assoc. reflexivity.
Qed.

(* ------------------------------------------------------------------ *)
(** * The properties of the specification *)

(** C1. No false negatives: once [add(w)] has returned, [query(w)] returns
    [True], immediately and after any further calls of [add] on any
    items. *)
Theorem no_false_negatives (self self1 : BloomFilter) (w : value) (others : list value) :
  add w self = (self1, Ok tt) ->
  query w (add_all others self1) = (add_all others self1, Ok true).
Proof.
  intros Hadd. apply query_monotone. exact (query_after_add self self1 w Hadd).
Qed.

Lemma no_false_negatives_witness :
  add (word "0") bloom1 = (fst (add (word "0") bloom1), Ok tt) /\
  query (word "0") (add_all [word "1"; word "2"; lone_surrogate] (fst (add (word "0") bloom1)))
    = (add_all [word "1"; word "2"; lone_surrogate] (fst (add (word "0") bloom1)), Ok true).
Proof.
  assert (H : add (word "0") bloom1 = (fst (add (word "0") bloom1), Ok tt))
    by (vm_compute; reflexivity).
  split; [exact H|].
  exact (no_false_negatives bloom1 _ (word "0") [word "1"; word "2"; lone_surrogate] H).
Defined.

(** C2, as the code has it.  For positive ints [n] and [m] (and a C
    library whose [log(2)] is not negative), the instance that the
    constructor returns holds [n], [m], a bit array of [m] unset bits,
    [num_hash = floor((m/n) * log(2))] and
    [false_positive_probability = exp(-(m/n) * log(2)**2)], each operation
    rounded to binary64: the quotient [m/n] fits a float then, and [**],
    [math.exp] and [int] have returned.  The constructor does not return
    for all [n] and [m]: what the division [m/n], the estimate or the
    number of hash functions raises, it raises. *)
Theorem init_parameters (L : Float.libm) (n m : Z) :
  0 < n -> 0 < m -> sign_bit (Float.math_log_2 L) = false ->
  (forall self : BloomFilter,
     __init__ L (Int n) (Int m) = Ok self ->
     exists q l2sq,
       Float.int_truediv m n = Ok q /\
       Float.pow2 L (Float.math_log_2 L) = Ok l2sq /\
       Float.math_exp L (Float.mul (Float.neg q) l2sq)
         = Ok (false_positive_probability self) /\
       floor_of (Float.mul q (Float.math_log_2 L)) = Some (num_hash self) /\
       num_words self = n /\ num_bits self = m /\
       _bit_array self = repeat false (Z.to_nat m)) /\
  (forall e : exn,
     Float.int_truediv m n = Raise e -> __init__ L (Int n) (Int m) = Raise e) /\
  (forall e : exn,
     _calculate_false_positive L n m = Raise e ->
     __init__ L (Int n) (Int m) = Raise e) /\
  (forall (fp : Float.float) (e : exn),
     _calculate_false_positive L n m = Ok fp ->
     _calculate_num_hash L n m = Raise e ->
     __init__ L (Int n) (Int m) = Raise e).
Proof.
  intros Hn Hm Hl2. rewrite (__init___valid L n m Hn Hm).
  split; [|split; [|split]].
  2: { intros e E. unfold _calculate_false_positive. now rewrite E. }
  2: { intros e E. now rewrite E. }
  2: { intros fp e E1 E2. now rewrite E1, E2. }
  unfold _calculate_false_positive, _calculate_num_hash.
  unfold num_hash, num_words, num_bits, false_positive_probability.
  set (l2 := Float.math_log_2 L) in *.
  destruct (Float.int_truediv m n) as [q|e] eqn:Eq; cbn [bind]; [|discriminate].
  intros self.
  assert (Hk : forall k, Float.to_int (Float.mul q l2) = Ok k ->
                         floor_of (Float.mul q l2) = Some k).
  { intros k. destruct (int_truediv_sign n m q Hn Hm Eq) as [Hq|Hq].
    - assert (Hnan : Float.is_nan (Float.mul q l2) = true)
        by (destruct q; try discriminate Hq; reflexivity).
      destruct (to_int_nan _ k Hnan). tauto.
    - destruct (mul_sign q l2 Hq Hl2) as [Hnan|Hs].
      + destruct (to_int_nan _ k Hnan). tauto.
      + now apply to_int_floor. }
  destruct (Float.pow2 L l2) as [l2sq|e] eqn:Esq; cbn [bind]; [|discriminate].
  destruct (Float.math_exp L _) as [fp|e] eqn:Efp; cbn [bind]; [|discriminate].
  destruct (Float.to_int _) as [k|e] eqn:Ek; cbn [bind]; [|discriminate].
  intros [= <-]. exists q, l2sq. cbn. rewrite Efp.
  repeat split. now apply Hk.
Qed.

Lemma init_parameters_witness :
  exists q l2sq,
    Float.int_truediv 400 100 = Ok q /\
    Float.pow2 libm_driver (Float.math_log_2 libm_driver) = Ok l2sq /\
    Float.math_exp libm_driver (Float.mul (Float.neg q) l2sq)
      = Ok (false_positive_probability bloom1) /\
    floor_of (Float.mul q (Float.math_log_2 libm_driver)) = Some (num_hash bloom1) /\
    num_words bloom1 = 100 /\ num_bits bloom1 = 400 /\
    _bit_array bloom1 = repeat false (Z.to_nat 400).
Proof.
  destruct (init_parameters libm_driver 100 400) as [H _]; [lia | lia | reflexivity |].
  apply (H bloom1). vm_compute. reflexivity.
Defined.

(** C2 as stated fails: with [n = 1] and [m = 2^1024] the quotient [m/n] is
    too large for a float, and the constructor raises whatever the C
    library is. *)
Lemma init_overflows :
  0 < 1 /\ 0 < 2 ^ 1024 /\
  forall L : Float.libm,
    __init__ L (Int 1) (Int (2 ^ 1024)) =
      Raise (OverflowError "integer division result too large for a float").
Proof. split; [lia|]. split; [lia|]. intros L. vm_compute. reflexivity. Qed.

(** C3 fails on the code.  For the word ["a"] on [BloomFilter(100, 400)]:
    the digest is [0cc175b9c0f1b6a8 31c399e269772661]; [_get_hashes] takes
    [h1] from [hexdigest()[:15]], one digit short of the first half, and
    returns [[59, 156]]; from the two halves the positions are
    [[297, 394]]. *)
Theorem get_hashes_first_half_short :
  MD5.hexdigest (flat_map utf8_of_code_point (str_of_string "a"))
    = "0cc175b9c0f1b6a831c399e269772661"%string /\
  slice_to 15 "0cc175b9c0f1b6a831c399e269772661" = "0cc175b9c0f1b6a"%string /\
  slice_from 16 "0cc175b9c0f1b6a831c399e269772661" = "31c399e269772661"%string /\
  _get_hashes (str_of_string "a") bloom1 = (bloom1, Ok [59; 156]) /\
  positions_spec (str_of_string "a") (num_bits bloom1) (num_hash bloom1)
    = Ok [297; 394].
Proof. repeat split; vm_compute; reflexivity. Qed.

(** C4. [add] is idempotent: a second [add(w)] leaves the instance, bit
    array included, as the first one left it, and ends the same way. *)
Theorem add_idempotent (self : BloomFilter) (w : value) :
  add w (fst (add w self)) = add w self.
Proof.
  rewrite !add_eq. destruct w as [| |s|]; try reflexivity.
  destruct (positions s (_num_bits self) (_num_hash self)) as [idxs|e] eqn:Hpos.
  - destruct (for_ idxs set_bit self) as [self1 r] eqn:Hrun. cbn [fst].
    destruct (for_set_bit idxs self) as (l & r' & Hrun' & _).
    rewrite Hrun in Hrun'. injection Hrun' as E1 E2. subst self1 r'.
    cbn [_num_bits _num_hash with_bit_array]. rewrite Hpos.
    exact (for_set_bit_again idxs self _ r Hrun).
  - cbn [fst]. now rewrite Hpos.
Qed.



(** C7, as the code has it.  With no hash function ([num_hash = 0]),
    [query] returns [True] for every string that UTF-8 can encode, added or
    not, and [add] of any item leaves the instance as it was. *)
Theorem no_hash_accepts_all (self : BloomFilter) (s : str) :
  num_hash self = 0 ->
  existsb is_surrogate s = false ->
  query (Str s) self = (self, Ok true) /\
  forall w : value, fst (add w self) = self.
Proof.
  unfold num_hash. intros Hk Hs. split.
  - rewrite query_eq. f_equal.
    destruct (encode_cases s) as [[_ E]|[E _]]; [|congruence].
    destruct (positions_encoded s (_num_bits self) (_num_hash self) _ E)
      as (h1 & h2 & _ & _ & ->).
    rewrite Hk. reflexivity.
  - intros w. rewrite add_eq. destruct w as [| |s'|]; try reflexivity.
    destruct (encode_cases s') as [[_ E]|[_ [msg E]]].
    + destruct (positions_encoded s' (_num_bits self) (_num_hash self) _ E)
        as (h1 & h2 & _ & _ & ->).
      rewrite Hk. reflexivity.
    + now rewrite (positions_unencoded _ _ _ _ E).
Qed.

Lemma no_hash_accepts_all_witness :
  query (word "never added") bloom_k0 = (bloom_k0, Ok true) /\
  forall w : value, fst (add w bloom_k0) = bloom_k0.
Proof.
  apply (no_hash_accepts_all bloom_k0 (str_of_string "never added")); reflexivity.
Defined.

(** C7 as stated fails: on a filter without hash functions, [query] of a
    string that holds a lone surrogate raises instead of returning. *)
Lemma no_hash_query_raises :
  num_hash bloom_k0 = 0 /\
  exists msg, query lone_surrogate bloom_k0 = (bloom_k0, Raise (UnicodeEncodeError msg)).
Proof. split; [reflexivity|]. eexists. vm_compute. reflexivity. Qed.

(** C8, as the code has it.  Each argument is validated first: a value of
    the wrong type raises [TypeError], an int that is not positive or a
    probability [p] with [p <= 0 or p >= 1] raises [ValueError], and a call
    whose validation fails raises that very exception.  Validation is not
    the only failure: on valid arguments the constructor raises what the
    division [m/n] raises, and on a well-formed instance [add] and [query]
    return exactly on the strings UTF-8 can encode and raise
    [UnicodeEncodeError] on the others.  The instance is unchanged whenever
    [add] or [query] raises. *)
Theorem error_contract (L : Float.libm) (self : BloomFilter) (n m p w : value) :
  wf self ->
  (* the validators *)
  ((raises_TypeError (_validate_num_words n) <-> is_int n = false) /\
   (raises_ValueError (_validate_num_words n) <-> exists z, n = Int z /\ z <= 0) /\
   (forall z, _validate_num_words n = Ok z <-> n = Int z /\ 0 < z)) /\
  ((raises_TypeError (_validate_num_bits m) <-> is_int m = false) /\
   (raises_ValueError (_validate_num_bits m) <-> exists z, m = Int z /\ z <= 0) /\
   (forall z, _validate_num_bits m = Ok z <-> m = Int z /\ 0 < z)) /\
  ((raises_TypeError (_validate_probability p) <-> is_number p = false) /\
   (raises_ValueError (_validate_probability p) <->
      is_number p = true /\ outside_unit_interval p) /\
   (forall x, _validate_probability p = Ok x <->
      p = Flt x /\ Float.leb x Float.zero = false /\ Float.leb Float.one x = false)) /\
  ((raises_TypeError (_validate_word w) <-> is_str w = false) /\
   (forall s, _validate_word w = Ok s <-> w = Str s)) /\
  (* validation comes first *)
  (forall e, _validate_num_words n = Raise e ->
     __init__ L n m = Raise e /\ with_false_positive_constraint L n p = Raise e) /\
  (forall z e, _validate_num_words n = Ok z -> _validate_num_bits m = Raise e ->
     __init__ L n m = Raise e) /\
  (forall z e, _validate_num_words n = Ok z -> _validate_probability p = Raise e ->
     with_false_positive_constraint L n p = Raise e) /\
  (forall e, _validate_word w = Raise e ->
     add w self = (self, Raise e) /\ query w self = (self, Raise e)) /\
  (* on valid arguments, what fails is the float arithmetic *)
  (forall zn zm e, n = Int zn -> m = Int zm -> 0 < zn -> 0 < zm ->
     Float.int_truediv zm zn = Raise e -> __init__ L n m = Raise e) /\
  (* on a string, what fails is the encoding *)
  (forall s, w = Str s ->
     if existsb is_surrogate s
     then (exists msg, add w self = (self, Raise (UnicodeEncodeError msg))) /\
          (exists msg, query w self = (self, Raise (UnicodeEncodeError msg)))
     else snd (add w self) = Ok tt /\ exists b, query w self = (self, Ok b)) /\
  (* a call that raises leaves the instance as it was *)
  (forall self' e, add w self = (self', Raise e) -> self' = self) /\
  (forall self' e, query w self = (self', Raise e) -> self' = self).
Proof.
  intros Hwf.
  split; [apply _validate_num_words_cases|].
  split; [apply _validate_num_bits_cases|].
  split; [apply _validate_probability_cases|].
  split; [apply _validate_word_cases|].
  split; [|split; [|split; [|split; [|split; [|split; [|split]]]]]].
  - intros e E. unfold __init__, with_false_positive_constraint. now rewrite E.
  - intros z e En Em. unfold __init__. now rewrite En, Em.
  - intros z e En Ep. unfold with_false_positive_constraint. now rewrite En, Ep.
  - intros e E. rewrite add_eq, query_eq.
    destruct w; try discriminate E; injection E as <-; split; reflexivity.
  - intros zn zm e -> -> Hn Hm E. rewrite (__init___valid L zn zm Hn Hm).
    unfold _calculate_false_positive. now rewrite E.
  - intros s ->.
    pose proof (add_wf self (Str s) Hwf) as Ha.
    pose proof (query_wf self (Str s) Hwf) as Hq.
    pose proof (query_fst (Str s) self) as Hq'.
    destruct (add (Str s) self) as [self' [[]|e]];
      destruct (query (Str s) self) as [self'' [b|e']]; cbn [fst snd] in *; subst self''.
    + destruct Ha as (s' & [= <-] & ->). eauto.
    + destruct Ha as (s' & [= <-] & Hs). destruct Hq as [Hs' _]. congruence.
    + destruct Ha as (-> & Hs & _). destruct Hq as (s' & [= <-] & Hs'). congruence.
    + destruct Ha as (-> & -> & msg & ->). destruct Hq as (_ & msg' & ->). eauto.
  - intros self' e E. pose proof (add_wf self w Hwf) as Ha. rewrite E in Ha. tauto.
  - intros self' e E. pose proof (query_fst w self) as Hq.
    now rewrite E in Hq.
Qed.

Lemma error_contract_witness :
  wf bloom1 /\
  add NoneV bloom1 = (bloom1, Raise (TypeError "Word should be a string")).
Proof.
  assert (Hwf : wf bloom1) by (split; [reflexivity | reflexivity]).
  split; [exact Hwf|].
  pose proof (error_contract libm_driver bloom1 (Int 0) (Flt Float.one) NoneV NoneV Hwf)
    as (_ & _ & _ & _ & _ & _ & _ & H & _).
  exact (proj1 (H _ eq_refl)).
Defined.

(** C8 as stated fails: a string is a valid item and a positive int a
    valid size, yet [add] of a string that holds a lone surrogate raises
    [UnicodeEncodeError], and [BloomFilter(1, 2**1024)] raises
    [OverflowError] whatever the C library is. *)
Lemma other_failures :
  (wf bloom1 /\ is_str lone_surrogate = true /\
   exists msg, add lone_surrogate bloom1 = (bloom1, Raise (UnicodeEncodeError msg))) /\
  (forall L : Float.libm,
     _validate_num_words (Int 1) = Ok 1 /\
     _validate_num_bits (Int (2 ^ 1024)) = Ok (2 ^ 1024) /\
     __init__ L (Int 1) (Int (2 ^ 1024)) =
       Raise (OverflowError "integer division result too large for a float")).
Proof.
  split.
  - split; [split; reflexivity|]. split; [reflexivity|].
    eexists. vm_compute. reflexivity.
  - intros L. split; [reflexivity|]. split; vm_compute; reflexivity.
Qed.

(** C9, as the code has it.  The text [str(self)] is three lines: the
    capacity, the length of the bit array and the estimated false positive
    rate, each after its label and as the instance stores it.  For an
    instance that a constructor has returned these are the values given to
    the constructor or derived by it (the number of bits from the bound,
    the estimate from the two ints), whatever has been added since.  The
    two ints are written in decimal and can be read back, and two
    instances have the same text exactly when they agree on the three
    values.  Neither the number of hash functions nor the bit array is in
    the text. *)
Theorem summary_reports (float_str : Float.float -> string) :
  (forall self : BloomFilter,
     __str__ float_str self =
       ("Word Capacity = " ++ str_int (num_words self) ++ nl
        ++ "Number of bits = " ++ str_int (num_bits self) ++ nl
        ++ "False positive probability = "
        ++ float_str (false_positive_probability self))%string) /\
  (forall (L : Float.libm) (n m : Z) (self : BloomFilter) (ws : list value),
     __init__ L (Int n) (Int m) = Ok self ->
     exists fp : Float.float,
       _calculate_false_positive L n m = Ok fp /\
       __str__ float_str (add_all ws self) =
         ("Word Capacity = " ++ str_int n ++ nl
          ++ "Number of bits = " ++ str_int m ++ nl
          ++ "False positive probability = " ++ float_str fp)%string) /\
  (forall (L : Float.libm) (n : Z) (vp : value) (self : BloomFilter)
          (ws : list value),
     with_false_positive_constraint L (Int n) vp = Ok self ->
     exists (p : Float.float) (m : Z) (fp : Float.float),
       _validate_probability vp = Ok p /\
       _calculate_num_bits L n p = Ok m /\
       _calculate_false_positive L n m = Ok fp /\
       __str__ float_str (add_all ws self) =
         ("Word Capacity = " ++ str_int n ++ nl
          ++ "Number of bits = " ++ str_int m ++ nl
          ++ "False positive probability = " ++ float_str fp)%string) /\
  (forall z : Z,
     option_map Z.of_int (NilEmpty.int_of_string (str_int z)) = Some z) /\
  (forall self other : BloomFilter,
     __str__ float_str self = __str__ float_str other <->
     num_words self = num_words other /\
     num_bits self = num_bits other /\
     float_str (false_positive_probability self)
       = float_str (false_positive_probability other)) /\
  (forall (self : BloomFilter) (k : Z) (l : list bool),
     __str__ float_str (with_bit_array (with_num_hash self k) l)
       = __str__ float_str self).
Proof.
  split; [reflexivity|]. split; [|split; [|split; [|split]]].
  - intros L n m self ws Hinit.
    destruct (__str___after_init float_str L _ _ self ws Hinit)
      as (n' & m' & fp & [= <-] & [= <-] & Hfp & Htext).
    exists fp. split; assumption.
  - intros L n vp self ws Hrun.
    destruct (with_false_positive_constraint_cases L _ _ self Hrun)
      as (n0 & p & m & En & Ep & Em & Hinit).
    assert (n0 = n) as ->.
    { cbn [_validate_num_words] in En. destruct (n <=? 0); [discriminate|].
      now injection En. }
    destruct (__str___after_init float_str L _ _ self ws Hinit)
      as (n' & m' & fp & [= <-] & [= <-] & Hfp & Htext).
    exists p, m, fp. repeat split; assumption.
  - intros z. unfold str_int. rewrite NilEmpty.isi. cbn [option_map].
    now rewrite DecimalZ.of_to.
  - intros self other. unfold __str__. split.
    + intros E. cbn [append] in E.
      repeat (injection E as E).
      apply append_first_line in E; try apply str_int_one_line.
      destruct E as [En E]. cbn [append] in E.
      repeat (injection E as E).
      apply append_first_line in E; try apply str_int_one_line.
      destruct E as [Em E]. cbn [append] in E.
      repeat (injection E as E).
      auto using str_int_inj.
    + intros (-> & -> & ->). reflexivity.
  - reflexivity.
Qed.

(** C9 as stated fails: the text of [BloomFilter(100, 400)] has three
    lines, none of them for its two hash functions, and it would be the
    same text for any other number of them. *)
Lemma summary_omits_num_hash :
  num_hash bloom1 = 2 /\
  forall float_str : Float.float -> string,
    __str__ float_str bloom1 =
      ("Word Capacity = 100" ++ nl ++ "Number of bits = 400" ++ nl
       ++ "False positive probability = "
       ++ float_str (false_positive_probability bloom1))%string /\
    forall k : Z, __str__ float_str (with_num_hash bloom1 k) = __str__ float_str bloom1.
Proof. split; [reflexivity|]. intros float_str. split; [reflexivity|]. reflexivity. Qed.

(** C10. [query] only observes: it leaves every attribute of the instance
    as it was, whatever the item and whether it returns or raises. *)
Theorem query_leaves_instance (self : BloomFilter) (w : value) :
  fst (query w self) = self.
Proof. apply query_fst. Qed.

(* ------------------------------------------------------------------ *)
(** * Further properties of the code *)

(** ** What the constructors return *)

(** X2.  Whichever constructor has returned it, a filter has a positive
    [num_words] and a positive [num_bits], the estimate and the number of
    hash functions that [_calculate_false_positive] and
    [_calculate_num_hash] return on the two, and a bit array of [num_bits]
    bits, none of them set. *)
Theorem constructed_invariant (L : Float.libm) (self : BloomFilter) :
  constructed L self ->
  0 < num_words self /\ 0 < num_bits self /\
  _calculate_false_positive L (num_words self) (num_bits self)
    = Ok (false_positive_probability self) /\
  _calculate_num_hash L (num_words self) (num_bits self) = Ok (num_hash self) /\
  Z.of_nat (length (_bit_array self)) = num_bits self /\
  _bit_array self = repeat false (Z.to_nat (num_bits self)).
Proof.
  intros Hc. destruct (constructed_wf L self Hc) as [[_ Hlen] Hbits].
  destruct (constructed_init L self Hc) as (vn & vm & Hinit).
  destruct (__init___cases L vn vm self Hinit) as (_ & _ & Hn & Hm & Hfp & Hk).
  unfold num_words, num_bits, num_hash, false_positive_probability.
  repeat split; assumption.
Qed.

Lemma constructed_invariant_witness :
  0 < num_words bloom2 /\ 0 < num_bits bloom2 /\
  _calculate_false_positive libm_driver (num_words bloom2) (num_bits bloom2)
    = Ok (false_positive_probability bloom2) /\
  _calculate_num_hash libm_driver (num_words bloom2) (num_bits bloom2)
    = Ok (num_hash bloom2) /\
  Z.of_nat (length (_bit_array bloom2)) = num_bits bloom2 /\
  _bit_array bloom2 = repeat false (Z.to_nat (num_bits bloom2)).
Proof.
  apply (constructed_invariant libm_driver bloom2).
  right. exists (Int 1000), (Flt Driver.one_percent). vm_compute. reflexivity.
Defined.

(** X4.  [nan] passes [_validate_probability], since neither [nan <= 0] nor
    [nan >= 1] holds; [with_false_positive_constraint] then fails in
    [math.ceil], with a [ValueError] that is not the validator's, for every
    [n > 0] that fits a float (and a C library whose [log(2)**2] is a float
    other than zero). *)
Theorem nan_probability_fails_late (L : Float.libm) (n : Z) (nf l2sq : Float.float) :
  0 < n -> Float.of_int n = Ok nf ->
  Float.pow2 L (Float.math_log_2 L) = Ok l2sq -> Float.is_zero l2sq = false ->
  _validate_probability (Flt S754_nan) = Ok S754_nan /\
  with_false_positive_constraint L (Int n) (Flt S754_nan) =
    Raise (ValueError "cannot convert float NaN to integer").
Proof.
  intros Hn Hnf Hsq Hz. split; [reflexivity|].
  unfold with_false_positive_constraint. cbn [_validate_num_words].
  destruct (Z.leb_spec n 0); [lia|]. cbn [bind].
  change (_validate_probability (Flt S754_nan)) with (Ok (A:=Float.float) S754_nan).
  cbn [bind]. unfold _calculate_num_bits. cbn [Float.math_log bind].
  unfold Float.int_mul. rewrite Hnf. cbn [bind]. rewrite mul_nan_r, Hsq.
  cbn [bind Float.neg SFopp]. unfold Float.truediv. rewrite Hz, div_nan_l.
  reflexivity.
Qed.

Lemma nan_probability_fails_late_witness :
  _validate_probability (Flt S754_nan) = Ok S754_nan /\
  with_false_positive_constraint libm_driver (Int 1000) (Flt S754_nan) =
    Raise (ValueError "cannot convert float NaN to integer").
Proof.
  eapply (nan_probability_fails_late libm_driver 1000).
  - lia.
  - vm_compute. reflexivity.
  - vm_compute. reflexivity.
  - reflexivity.
Defined.

(** X5.  When [with_false_positive_constraint] returns a filter, both
    arguments have passed their validators, the number of bits is the one
    [_calculate_num_bits] returns, and the filter is the one
    [BloomFilter(num_words, num_bits)] returns on it: well formed, with
    every bit unset. *)
Theorem with_false_positive_constraint_returns (L : Float.libm) (vn vp : value)
  (self : BloomFilter) :
  with_false_positive_constraint L vn vp = Ok self ->
  exists p,
    _validate_num_words vn = Ok (num_words self) /\
    _validate_probability vp = Ok p /\
    _calculate_num_bits L (num_words self) p = Ok (num_bits self) /\
    __init__ L vn (Int (num_bits self)) = Ok self /\
    wf self /\
    _bit_array self = repeat false (Z.to_nat (num_bits self)).
Proof.
  intros H.
  destruct (with_false_positive_constraint_cases L vn vp self H)
    as (n & p & m & En & Ep & Em & Hinit).
  destruct (__init___wf L vn (Int m) self Hinit) as (Hwf & Hbits & -> & [= ->]).
  assert (En' : _validate_num_words (Int (_num_words self)) = Ok (_num_words self)).
  { rewrite En. f_equal. cbn [_validate_num_words] in En.
    destruct (_num_words self <=? 0); [discriminate | now injection En]. }
  rewrite En' in En. injection En as <-.
  exists p. unfold num_words, num_bits. repeat split; assumption || apply Hwf.
Qed.

Lemma with_false_positive_constraint_returns_witness :
  exists p,
    _validate_num_words (Int 1000) = Ok (num_words bloom2) /\
    _validate_probability (Flt Driver.one_percent) = Ok p /\
    _calculate_num_bits libm_driver (num_words bloom2) p = Ok (num_bits bloom2) /\
    __init__ libm_driver (Int 1000) (Int (num_bits bloom2)) = Ok bloom2 /\
    wf bloom2 /\
    _bit_array bloom2 = repeat false (Z.to_nat (num_bits bloom2)).
Proof.
  apply (with_false_positive_constraint_returns libm_driver (Int 1000)
           (Flt Driver.one_percent) bloom2).
  vm_compute. reflexivity.
Defined.

(** X6.  With a C library whose [log(2)] is not negative, the number of
    hash functions of a filter that a constructor has returned is not
    negative. *)
Theorem num_hash_nonneg (L : Float.libm) (self : BloomFilter) :
  constructed L self -> sign_bit (Float.math_log_2 L) = false ->
  0 <= num_hash self.
Proof.
  intros Hc Hl2. destruct (constructed_init L self Hc) as (vn & vm & Hinit).
  destruct (__init___cases L vn vm self Hinit) as (_ & _ & Hn & Hm & _ & Hk).
  exact (_calculate_num_hash_nonneg L _ _ _ Hn Hm Hl2 Hk).
Qed.

Lemma num_hash_nonneg_witness : 0 <= num_hash bloom2.
Proof.
  apply (num_hash_nonneg libm_driver bloom2).
  - right. exists (Int 1000), (Flt Driver.one_percent). vm_compute. reflexivity.
  - reflexivity.
Defined.

(** ** The filter after calls of [add] *)

(** X7.  On a well-formed instance, calls of [add] change the bit array and
    nothing else; the array keeps its length, and a bit is set afterwards
    exactly when it was set before or is a position of one of the items. *)
Theorem add_all_bits (self : BloomFilter) (ws : list value) :
  wf self ->
  exists l,
    add_all ws self = with_bit_array self l /\
    length l = length (_bit_array self) /\
    forall (k : nat) (b : bool),
      _bit_array self !! k = Some b ->
      l !! k = Some (b || hit_by self ws (Z.of_nat k)).
Proof.
  intros Hwf. destruct (add_all_lookup ws self Hwf) as (l & E & Hlen & Hl).
  exists l. split; [exact E|]. split; [exact Hlen|].
  intros k b Hb. now rewrite Hl, Hb.
Qed.

Lemma add_all_bits_witness :
  exists l,
    add_all [word "0"; NoneV] bloom1 = with_bit_array bloom1 l /\
    length l = length (_bit_array bloom1) /\
    forall (k : nat) (b : bool),
      _bit_array bloom1 !! k = Some b ->
      l !! k = Some (b || hit_by bloom1 [word "0"; NoneV] (Z.of_nat k)).
Proof.
  apply (add_all_bits bloom1 [word "0"; NoneV]). split; reflexivity.
Defined.

(** X8.  On a filter that a constructor has returned, after any calls of
    [add], [query] of a string that UTF-8 can encode returns [True] exactly
    when each of its positions is a position of one of the items added: an
    item never added is found when the items added cover its positions. *)
Theorem query_after_adds (L : Float.libm) (self : BloomFilter) (ws : list value)
  (s : str) :
  constructed L self -> existsb is_surrogate s = false ->
  query (Str s) (add_all ws self) =
    (add_all ws self, Ok (forallb (hit_by self ws) (hash_positions self (Str s)))).
Proof.
  intros Hc Hs. destruct (constructed_wf L self Hc) as [Hwf Hbits].
  destruct (add_all_lookup ws self Hwf) as (l & -> & Hlen & Hl).
  rewrite (query_lookup (with_bit_array self l) s (hit_by self ws)).
  - reflexivity.
  - now apply wf_with_bit_array.
  - exact Hs.
  - intros i Hi. cbn [_bit_array _num_bits with_bit_array] in *.
    rewrite Hl, Hbits, lookup_repeat by lia. cbn. now rewrite Z2Nat.id by lia.
Qed.

Lemma query_after_adds_witness :
  query (Str (str_of_string "1")) (add_all [word "0"; NoneV] bloom1) =
    (add_all [word "0"; NoneV] bloom1,
     Ok (forallb (hit_by bloom1 [word "0"; NoneV])
           (hash_positions bloom1 (Str (str_of_string "1"))))).
Proof.
  apply (query_after_adds libm_driver bloom1 [word "0"; NoneV] (str_of_string "1")).
  - left. exists (Int 100), (Int 400). vm_compute. reflexivity.
  - reflexivity.
Defined.

(** X9.  A filter that a constructor has returned with at least one hash
    function finds nothing: before any [add], [query] returns [False] for
    every string that UTF-8 can encode. *)
Theorem new_filter_finds_nothing (L : Float.libm) (self : BloomFilter) (s : str) :
  constructed L self -> 0 < num_hash self -> existsb is_surrogate s = false ->
  query (Str s) self = (self, Ok false).
Proof.
  unfold num_hash. intros Hc Hk Hs.
  destruct (constructed_wf L self Hc) as [Hwf Hbits].
  rewrite (query_lookup self s (fun _ => false) Hwf Hs).
  - do 2 f_equal. cbn [hash_positions]. rewrite _get_hashes_eq. cbn [snd].
    pose proof (positions_wf s (_num_bits self) (_num_hash self) (proj1 Hwf)) as Hpos.
    destruct (positions s _ _) as [idxs|e]; [|destruct Hpos; congruence].
    destruct Hpos as (_ & Hlen & _).
    destruct idxs as [|i idxs]; [cbn in Hlen; lia | reflexivity].
  - intros i Hi. rewrite Hbits. apply lookup_repeat. lia.
Qed.

Lemma new_filter_finds_nothing_witness :
  query (Str (str_of_string "0")) bloom1 = (bloom1, Ok false).
Proof.
  apply (new_filter_finds_nothing libm_driver bloom1 (str_of_string "0")).
  - left. exists (Int 100), (Int 400). vm_compute. reflexivity.
  - reflexivity.
  - reflexivity.
Defined.

(** X10.  A well-formed filter with every bit set is full: [query] returns
    [True] for every string that UTF-8 can encode, and [add] of any item
    leaves the filter as it is. *)
Theorem full_filter_accepts_all (self : BloomFilter) (s : str) :
  wf self -> forallb id (_bit_array self) = true ->
  existsb is_surrogate s = false ->
  query (Str s) self = (self, Ok true) /\
  forall w : value, fst (add w self) = self.
Proof.
  intros Hwf Hfull Hs.
  assert (Hbit : forall k b, _bit_array self !! k = Some b -> b = true).
  { intros k b Hk. rewrite forallb_forall in Hfull.
    apply (Hfull b). apply list_elem_of_In. eapply list_elem_of_lookup_2, Hk. }
  split.
  - rewrite (query_lookup self s (fun _ => true) Hwf Hs).
    + do 2 f_equal. now induction (hash_positions self (Str s)).
    + intros i Hi. destruct Hwf as [_ Hlen].
      destruct (lookup_lt_is_Some_2 (_bit_array self) (Z.to_nat i)) as [b Hb]; [lia|].
      now rewrite Hb, (Hbit _ _ Hb).
  - intros w. destruct (add_lookup self w Hwf) as (l & -> & _ & Hl).
    rewrite <- (with_bit_array_same self) at 2. f_equal.
    apply list_eq. intros k. rewrite Hl.
    destruct (_bit_array self !! k) as [b|] eqn:Hb; [|reflexivity].
    now rewrite (Hbit _ _ Hb).
Qed.

Lemma full_filter_accepts_all_witness :
  query (Str (str_of_string "0")) (with_bit_array bloom1 (repeat true 400)) =
    (with_bit_array bloom1 (repeat true 400), Ok true) /\
  forall w : value,
    fst (add w (with_bit_array bloom1 (repeat true 400))) =
      with_bit_array bloom1 (repeat true 400).
Proof.
  apply (full_filter_accepts_all (with_bit_array bloom1 (repeat true 400))
           (str_of_string "0")).
  - split; reflexivity.
  - reflexivity.
  - reflexivity.
Defined.

(** X11.  On a well-formed instance, the filter that calls of [add] leave
    depends on which items were added only: not on their order, and not on
    how often each one was added. *)
Theorem add_all_same_items (self : BloomFilter) (ws ws' : list value) :
  wf self -> (forall w, In w ws <-> In w ws') ->
  add_all ws self = add_all ws' self.
Proof.
  intros Hwf Hsame.
  destruct (add_all_lookup ws self Hwf) as (l & -> & _ & Hl).
  destruct (add_all_lookup ws' self Hwf) as (l' & -> & _ & Hl').
  f_equal. apply list_eq. intros k. rewrite Hl, Hl'.
  unfold hit_by. now rewrite (existsb_same_elements _ ws ws' Hsame).
Qed.

Lemma add_all_same_items_witness :
  add_all [word "0"; word "1"; word "0"] bloom1 = add_all [word "1"; word "0"] bloom1.
Proof.
  apply (add_all_same_items bloom1 [word "0"; word "1"; word "0"] [word "1"; word "0"]).
  - split; reflexivity.
  - intros w. cbn [In]. tauto.
Defined.

(** X12.  Calls of [add] never unset a bit, and each call sets at most
    [num_hash] bits, on any instance and for any items. *)
Theorem add_all_set_bits (self : BloomFilter) (ws : list value) :
  (set_bits self <= set_bits (add_all ws self) <=
     set_bits self + length ws * Z.to_nat (num_hash self))%nat.
Proof.
  unfold add_all, num_hash. revert self.
  induction ws as [|w ws IH]; intros self; cbn [fold_left length]; [lia|].
  pose proof (add_set_bits self w) as Hadd.
  specialize (IH (fst (add w self))).
  assert (Hk : _num_hash (fst (add w self)) = _num_hash self)
    by (destruct (add_covers w self) as (l & -> & _); reflexivity).
  rewrite Hk in IH. cbn [Nat.mul]. lia.
Qed.

(** X13.  Calls of [add] leave the four parameters of the instance, the
    length of its bit array and its text as they were, on any instance and
    for any items. *)
Theorem add_all_keeps_parameters (float_str : Float.float -> string)
  (self : BloomFilter) (ws : list value) :
  num_words (add_all ws self) = num_words self /\
  num_bits (add_all ws self) = num_bits self /\
  num_hash (add_all ws self) = num_hash self /\
  false_positive_probability (add_all ws self) = false_positive_probability self /\
  length (_bit_array (add_all ws self)) = length (_bit_array self) /\
  __str__ float_str (add_all ws self) = __str__ float_str self.
Proof.
  destruct (add_all_covers ws self) as (l & -> & Hlen & _).
  repeat split. exact Hlen.
Qed.

(** ** [Driver.py] *)

(** X14.  [Driver.py] on a well-formed filter: [populate_filter] adds the
    texts of [0 .. num_words - 1] without raising and prints how many, and
    [test_false_negative] then finds every one of them; it prints [num_words
    out of num_words] (for a [num_words] that is not negative) and leaves
    the filter as it is. *)
Theorem populate_then_test_false_negative (self : BloomFilter) (out : string) :
  wf self ->
  exists self',
    self' = add_all (map Driver.str_ (range 0 (num_words self))) self /\
    Driver.populate_filter (self, out) =
      ((self',
        (out ++ ("Added " ++ str_int (num_words self) ++ " words to bloom filter." ++ nl)
             ++ nl)%string),
       Ok tt) /\
    forall out' : string,
      Driver.test_false_negative (self', out') =
        ((self',
          ((out' ++ "Querying for items previously added to the filter:" ++ nl)
             ++ (str_int (Z.max 0 (num_words self)) ++ " out of "
                   ++ str_int (num_words self) ++ " words found." ++ nl)
             ++ nl)%string),
         Ok tt).
Proof.
  intros Hwf. eexists. split; [reflexivity|]. split.
  - exact (populate_filter_run self out Hwf).
  - intros out'. exact (test_false_negative_run self out' Hwf).
Qed.

Lemma populate_then_test_false_negative_witness :
  exists self',
    self' = add_all (map Driver.str_ (range 0 (num_words bloom1))) bloom1 /\
    Driver.populate_filter (bloom1, EmptyString) =
      ((self',
        (EmptyString
           ++ ("Added " ++ str_int (num_words bloom1) ++ " words to bloom filter." ++ nl)
           ++ nl)%string),
       Ok tt) /\
    forall out' : string,
      Driver.test_false_negative (self', out') =
        ((self',
          ((out' ++ "Querying for items previously added to the filter:" ++ nl)
             ++ (str_int (Z.max 0 (num_words bloom1)) ++ " out of "
                   ++ str_int (num_words bloom1) ++ " words found." ++ nl)
             ++ nl)%string),
         Ok tt).
Proof.
  apply (populate_then_test_false_negative bloom1 EmptyString). split; reflexivity.
Defined.

(** X15.  [Driver.py] on a well-formed filter: [test_false_positive] does
    not raise and leaves the filter as it is; the rate it prints is
    [num_hits / 10000], where [num_hits] counts the texts of [num_words ..
    num_words + 9999] for which [query] returns [True]. *)
Theorem test_false_positive_reports (float_str : Float.float -> string)
  (self : BloomFilter) (out : string) :
  wf self ->
  exists (answers : list bool) (rate : Float.float),
    Forall2 (fun i b => query (Driver.str_ i) self = (self, Ok b))
            (range (num_words self) (num_words self + 10000)) answers /\
    0 <= Driver.sum answers <= 10000 /\
    Float.int_truediv (Driver.sum answers) 10000 = Ok rate /\
    Driver.test_false_positive float_str (self, out) =
      ((self,
        ((out ++ "Querying for 10,000 new words never added to the filter:" ++ nl)
           ++ ("The empirical false positive rate is " ++ float_str rate) ++ nl)%string),
       Ok tt).
Proof. exact (test_false_positive_run float_str self out). Qed.

Lemma test_false_positive_reports_witness :
  exists (answers : list bool) (rate : Float.float),
    Forall2 (fun i b => query (Driver.str_ i) bloom1 = (bloom1, Ok b))
            (range (num_words bloom1) (num_words bloom1 + 10000)) answers /\
    0 <= Driver.sum answers <= 10000 /\
    Float.int_truediv (Driver.sum answers) 10000 = Ok rate /\
    Driver.test_false_positive (fun _ => "r"%string) (bloom1, EmptyString) =
      ((bloom1,
        ((EmptyString ++ "Querying for 10,000 new words never added to the filter:" ++ nl)
           ++ ("The empirical false positive rate is " ++ (fun _ => "r"%string) rate)
           ++ nl)%string),
       Ok tt).
Proof.
  apply (test_false_positive_reports (fun _ => "r"%string) bloom1 EmptyString).
  split; reflexivity.
Defined.

(** X16.  [main] of [Driver.py]: when both constructors return, [main] does
    not raise, and it prints that 100 out of 100 and 1000 out of 1000 words
    were found, and two rates [hits / 10000] with [0 <= hits <= 10000]. *)
Theorem main_reports (L : Float.libm) (float_str : Float.float -> string)
  (b1 b2 : BloomFilter) (out : string) :
  __init__ L (Int 100) (Int 400) = Ok b1 ->
  with_false_positive_constraint L (Int 1000) (Flt Driver.one_percent) = Ok b2 ->
  exists (hits1 hits2 : Z) (rate1 rate2 : Float.float),
    0 <= hits1 <= 10000 /\ 0 <= hits2 <= 10000 /\
    Float.int_truediv hits1 10000 = Ok rate1 /\
    Float.int_truediv hits2 10000 = Ok rate2 /\
    Driver.main L float_str out =
      ((out ++ nl ++ nl
          ++ "Example 1 - A Bloom filter that uses 400 bits to store up to 100 words:"
          ++ nl ++ nl
          ++ "Added 100 words to bloom filter." ++ nl ++ nl
          ++ "Querying for items previously added to the filter:" ++ nl
          ++ "100 out of 100 words found." ++ nl ++ nl
          ++ "Querying for 10,000 new words never added to the filter:" ++ nl
          ++ "The empirical false positive rate is " ++ float_str rate1 ++ nl
          ++ nl ++ nl
          ++ "Example 2 - A Bloom filter that stores up to 1000 words with"
          ++ " a false positive probability less than 0.01:"
          ++ nl ++ nl
          ++ "Added 1000 words to bloom filter." ++ nl ++ nl
          ++ "Querying for items previously added to the filter:" ++ nl
          ++ "1000 out of 1000 words found." ++ nl ++ nl
          ++ "Querying for 10,000 new words never added to the filter:" ++ nl
          ++ "The empirical false positive rate is " ++ float_str rate2 ++ nl)%string,
       Ok tt).
Proof.
  intros H1 H2.
  destruct (__init___wf L _ _ b1 H1) as (Hwf1 & _ & [= Hn1] & _).
  destruct (with_false_positive_constraint_cases L _ _ b2 H2)
    as (n & p & m & _ & _ & _ & Hinit2).
  destruct (__init___wf L _ _ b2 Hinit2) as (Hwf2 & _ & [= Hn2] & _).
  unfold Driver.main. rewrite H1, H2.
  match goal with
  | |- context [Driver.run_filter float_str (b1, ?o)] =>
      destruct (run_filter_run float_str b1 o Hwf1) as (hits1 & rate1 & b1' & Hh1 & Hr1 & ->);
        [unfold num_words; lia|]
  end.
  match goal with
  | |- context [Driver.run_filter float_str (b2, ?o)] =>
      destruct (run_filter_run float_str b2 o Hwf2) as (hits2 & rate2 & b2' & Hh2 & Hr2 & ->);
        [unfold num_words; lia|]
  end.
  exists hits1, hits2, rate1, rate2.
  split; [exact Hh1|]. split; [exact Hh2|]. split; [exact Hr1|]. split; [exact Hr2|].
  unfold num_words. rewrite <- Hn1, <- Hn2. rewrite !string_append_assoc. reflexivity.
Qed.

Lemma main_reports_witness :
  exists (hits1 hits2 : Z) (rate1 rate2 : Float.float),
    0 <= hits1 <= 10000 /\ 0 <= hits2 <= 10000 /\
    Float.int_truediv hits1 10000 = Ok rate1 /\
    Float.int_truediv hits2 10000 = Ok rate2 /\
    Driver.main libm_driver (fun _ => "r"%string) EmptyString =
      ((EmptyString ++ nl ++ nl
          ++ "Example 1 - A Bloom filter that uses 400 bits to store up to 100 words:"
          ++ nl ++ nl
          ++ "Added 100 words to bloom filter." ++ nl ++ nl
          ++ "Querying for items previously added to the filter:" ++ nl
          ++ "100 out of 100 words found." ++ nl ++ nl
          ++ "Querying for 10,000 new words never added to the filter:" ++ nl
          ++ "The empirical false positive rate is " ++ (fun _ => "r"%string) rate1 ++ nl
          ++ nl ++ nl
          ++ "Example 2 - A Bloom filter that stores up to 1000 words with"
          ++ " a false positive probability less than 0.01:"
          ++ nl ++ nl
          ++ "Added 1000 words to bloom filter." ++ nl ++ nl
          ++ "Querying for items previously added to the filter:" ++ nl
          ++ "1000 out of 1000 words found." ++ nl ++ nl
          ++ "Querying for 10,000 new words never added to the filter:" ++ nl
          ++ "The empirical false positive rate is " ++ (fun _ => "r"%string) rate2 ++ nl)%string,
       Ok tt).
Proof.
  apply (main_reports libm_driver (fun _ => "r"%string) bloom1 bloom2 EmptyString).
  - vm_compute. reflexivity.
  - vm_compute. reflexivity.
Defined.
